(** * Shipwright build controller: validation chain, field-conflict checker,
      source steps and failure extraction

    A shallow embedding of

    - [pkg/validate/validate.go]: the [BuildPath] interface, the chain runner
      [All] and the field-conflict checker [BuildRunFields];
    - the scheduler-name validator [SchedulerNameRef] of package [validate];
    - [AmendTaskSpecWithSources] of package [resources];
    - the parts of packages [validate], [sources] and [resources] that are
      exercised by the suites but whose text is not among the files at hand
      (the credentials validator, the step builders, the failure extractor);
      these are marked as such where they are defined.

    Go pointers that may be nil are [option]s, slices are [list]s, the
    [error] interface is an optional message.  A validator holds a pointer
    to the Build it inspects and writes to; the object behind that pointer
    is the state that is threaded through a validator and through the
    chain. *)

From Stdlib Require Import String Ascii List Bool Arith Lia DecimalString.
Import ListNotations.
Local Open Scope string_scope.

(** ** Go values *)

(** Go's [error]: [nil] is [None]. *)
Definition error : Type := option string.

Definition isNil {A : Type} (p : option A) : bool :=
  match p with
  | None => true
  | Some _ => false
  end.

(** Package [strings]. *)
Module strings.

(** [strings.Join(elems, sep)]. *)
Definition Join (elems : list string) (sep : string) : string :=
  String.concat sep elems.

(** [strings.Split(s, sep)] for a separator of one byte: the pieces of
    [s] between the occurrences of [sep], at least one piece. *)
Fixpoint Split (s : string) (sep : ascii) : list string :=
  match s with
  | EmptyString => [EmptyString]
  | String c rest =>
      if Ascii.eqb c sep then EmptyString :: Split rest sep
      else match Split rest sep with
           | piece :: pieces => String c piece :: pieces
           | [] => [String c EmptyString]
           end
  end.

(** [strings.Contains(s, substr)]. *)
Definition Contains (s substr : string) : bool :=
  match String.index 0 substr s with
  | Some _ => true
  | None => false
  end.

End strings.

(** Package [sort]. *)
Module sort.

Fixpoint insert (x : string) (l : list string) : list string :=
  match l with
  | [] => [x]
  | y :: rest => if String.leb x y then x :: l else y :: insert x rest
  end.

(** [sort.Strings(x)]: increasing order, strings compared byte by byte. *)
Fixpoint Strings (x : list string) : list string :=
  match x with
  | [] => []
  | y :: rest => insert y (Strings rest)
  end.

End sort.

(** ** [k8s.io/apimachinery/pkg/util/validation]

    The validators are stated over any implementation of the library's
    checks.  This module is the library's [IsQualifiedName] as its
    documentation and regular expressions define it; it instantiates the
    checks on concrete names. *)
Module validation.

Definition inRange (lo hi : nat) (c : ascii) : bool :=
  let n := nat_of_ascii c in ((lo <=? n) && (n <=? hi))%nat.

Definition isDigit (c : ascii) : bool := inRange 48 57 c.
Definition isUpper (c : ascii) : bool := inRange 65 90 c.
Definition isLower (c : ascii) : bool := inRange 97 122 c.

(** [qnameCharFmt = "[A-Za-z0-9]"] and [qnameExtCharFmt = "[-A-Za-z0-9_.]"]. *)
Definition qnameChar (c : ascii) : bool := isUpper c || isLower c || isDigit c.
Definition qnameExtChar (c : ascii) : bool :=
  qnameChar c || Ascii.eqb c "-" || Ascii.eqb c "_" || Ascii.eqb c ".".

Definition qualifiedNameFmt : string := "([A-Za-z0-9][-A-Za-z0-9_.]*)?[A-Za-z0-9]".
Definition qualifiedNameErrMsg : string :=
  "must consist of alphanumeric characters, '-', '_' or '.', and must start and end with an alphanumeric character".
Definition qualifiedNameMaxLength : nat := 63.

(** A match of the whole of [s] against [qualifiedNameFmt]: the last
    byte is a name character, and what precedes it is empty or a name
    character followed by extended name characters. *)
Definition qualifiedNameRegexp_MatchString (s : string) : bool :=
  match rev (list_ascii_of_string s) with
  | [] => false
  | final :: before =>
      qnameChar final &&
      match rev before with
      | [] => true
      | c :: cs => qnameChar c && forallb qnameExtChar cs
      end
  end.

(** [dns1123LabelFmt = "[a-z0-9]([-a-z0-9]*[a-z0-9])?"]. *)
Definition dns1123Char (c : ascii) : bool := isLower c || isDigit c.
Definition dns1123ExtChar (c : ascii) : bool := dns1123Char c || Ascii.eqb c "-".

Definition dns1123LabelFmt : string := "[a-z0-9]([-a-z0-9]*[a-z0-9])?".
Definition dns1123SubdomainFmt : string :=
  dns1123LabelFmt ++ "(\." ++ dns1123LabelFmt ++ ")*".
Definition dns1123SubdomainErrorMsg : string :=
  "a lowercase RFC 1123 subdomain must consist of lower case alphanumeric characters, '-' or '.', and must start and end with an alphanumeric character".
Definition DNS1123SubdomainMaxLength : nat := 253.

Definition dns1123Label_MatchString (s : string) : bool :=
  match list_ascii_of_string s with
  | [] => false
  | c :: cs => dns1123Char c && forallb dns1123ExtChar cs && dns1123Char (last cs c)
  end.

(** A match of the whole of [s] against [dns1123SubdomainFmt]: labels
    separated by dots. *)
Definition dns1123SubdomainRegexp_MatchString (s : string) : bool :=
  forallb dns1123Label_MatchString (strings.Split s ".").

Definition MaxLenError (length : nat) : string :=
  "must be no more than " ++ NilEmpty.string_of_uint (Nat.to_uint length) ++ " characters".

Definition EmptyError : string := "must be non-empty".

Fixpoint regexExamples (first : bool) (examples : list string) : string :=
  match examples with
  | [] => EmptyString
  | e :: rest =>
      (if first then EmptyString else " or ") ++ "'" ++ e ++ "', "
      ++ regexExamples false rest
  end.

Definition RegexError (msg fmt : string) (examples : list string) : string :=
  match examples with
  | [] => msg ++ " (regex used for validation is '" ++ fmt ++ "')"
  | _ => msg ++ " (e.g. " ++ regexExamples true examples
         ++ "regex used for validation is '" ++ fmt ++ "')"
  end.

Definition prefixEach (msgs : list string) (prefix : string) : list string :=
  map (fun m => prefix ++ m) msgs.

Definition IsDNS1123Subdomain (value : string) : list string :=
  (if (DNS1123SubdomainMaxLength <? String.length value)%nat
   then [MaxLenError DNS1123SubdomainMaxLength] else [])
  ++ (if negb (dns1123SubdomainRegexp_MatchString value)
      then [RegexError dns1123SubdomainErrorMsg dns1123SubdomainFmt ["example.com"]]
      else []).

(** The checks on the name part, shared by the one-part and the two-part
    case of [IsQualifiedName]. *)
Definition namePartErrors (name : string) : list string :=
  (if (String.length name =? 0)%nat then ["name part " ++ EmptyError]
   else if (qualifiedNameMaxLength <? String.length name)%nat
        then ["name part " ++ MaxLenError qualifiedNameMaxLength]
        else [])
  ++ (if negb (qualifiedNameRegexp_MatchString name)
      then ["name part " ++ RegexError qualifiedNameErrMsg qualifiedNameFmt
                                       ["MyName"; "my.name"; "123-abc"]]
      else []).

Definition IsQualifiedName (value : string) : list string :=
  match strings.Split value "/" with
  | [name] => namePartErrors name
  | [prefix; name] =>
      (if (String.length prefix =? 0)%nat then ["prefix part " ++ EmptyError]
       else prefixEach (IsDNS1123Subdomain prefix) "prefix part ")
      ++ namePartErrors name
  | _ =>
      ["a qualified name "
       ++ RegexError qualifiedNameErrMsg qualifiedNameFmt ["MyName"; "my.name"; "123-abc"]
       ++ " with an optional DNS subdomain prefix and '/' (e.g. 'example.com/MyName')"]
  end.

End validation.

(** ** API types of [pkg/apis/build/v1beta1]

    Only the fields that the embedded functions read or write.  A field
    [F] of a struct [T] is the projection [T_F]. *)
Module v1beta1.

Definition BuildReason : Type := string.

(** Modelled from the spec: the reason codes of the Build status, whose
    declarations (package [v1beta1]) are not among the files at hand; the
    codes are the ones the spec lists for the validators. *)
Definition SchedulerNameNotValid : BuildReason := "SchedulerNameNotValid".
(** Modelled from the spec: the reason of the node-selector validator. *)
Definition NodeSelectorNotValid : BuildReason := "NodeSelectorNotValid".
(** Modelled from the spec: the reason for a missing clone secret. *)
Definition SpecSourceSecretRefNotFound : BuildReason := "SpecSourceSecretRefNotFound".
(** Modelled from the spec: the reason for a missing push secret. *)
Definition SpecOutputSecretRefNotFound : BuildReason := "SpecOutputSecretRefNotFound".
(** Modelled from the spec: the reason for two missing secrets. *)
Definition MultipleSecretRefNotFound : BuildReason := "MultipleSecretRefNotFound".

Record Git : Type := mkGit
  { Git_URL : string;
    Git_CloneSecret : option string }.

Record Source : Type := mkSource
  { Source_Git : option Git }.

Record Image : Type := mkImage
  { Image_Image : string;
    Image_PushSecret : option string;
    Image_Timestamp : option string }.

Record Trigger : Type := mkTrigger
  { Trigger_TriggerSecret : option string }.

Record ParamValue : Type := mkParamValue
  { ParamValue_Name : string;
    ParamValue_Value : option string }.

Record EnvVar : Type := mkEnvVar
  { EnvVar_Name : string;
    EnvVar_Value : string }.

(** [metav1.Duration], in nanoseconds. *)
Definition Duration : Type := nat.

Record BuildSpec : Type := mkBuildSpec
  { BuildSpec_Source : option Source;
    BuildSpec_Trigger : option Trigger;
    BuildSpec_Output : Image;
    BuildSpec_SchedulerName : string }.

Record BuildStatus : Type := mkBuildStatus
  { BuildStatus_Reason : option BuildReason;
    BuildStatus_Message : option string }.

Record Build : Type := mkBuild
  { Build_Name : string;
    Build_Namespace : string;
    Build_Spec : BuildSpec;
    Build_Status : BuildStatus }.

(** The assignment [b.Status.Reason = r]. *)
Definition set_Status_Reason (r : option BuildReason) (b : Build) : Build :=
  mkBuild (Build_Name b) (Build_Namespace b) (Build_Spec b)
          (mkBuildStatus r (BuildStatus_Message (Build_Status b))).

(** The assignment [b.Status.Message = m]. *)
Definition set_Status_Message (m : option string) (b : Build) : Build :=
  mkBuild (Build_Name b) (Build_Namespace b) (Build_Spec b)
          (mkBuildStatus (BuildStatus_Reason (Build_Status b)) m).

Record ReferencedBuild : Type := mkReferencedBuild
  { ReferencedBuild_Spec : option BuildSpec;
    ReferencedBuild_Name : option string }.

Record BuildRunSpec : Type := mkBuildRunSpec
  { BuildRunSpec_Build : ReferencedBuild;
    BuildRunSpec_Timeout : option Duration;
    BuildRunSpec_ParamValues : list ParamValue;
    BuildRunSpec_Output : option Image;
    BuildRunSpec_Env : list EnvVar }.

Record BuildRun : Type := mkBuildRun
  { BuildRun_Name : string;
    BuildRun_Spec : BuildRunSpec }.

End v1beta1.

(** ** Package [validate] *)
Module validate.
Import v1beta1.

(** Modelled from the spec: the reason codes that [BuildRunFields]
    returns; they are constants of package [resources] whose declarations
    are not among the files at hand, the spec names the codes. *)
Definition BuildRunNoRefOrSpec : string := "NoRefOrSpec".
(** Modelled from the spec: the reason code for a BuildRun with both a
    reference and an inline spec. *)
Definition BuildRunAmbiguousBuild : string := "AmbiguousBuild".
(** Modelled from the spec: the reason code for an override field next to
    an inline spec. *)
Definition BuildRunBuildFieldOverrideForbidden : string := "BuildFieldOverrideForbidden".

(** The interface [BuildPath]: a value of it is its method
    [ValidatePath], closed over the receiver.  [St] is what the receiver
    points to and may write to; the method returns the technical error,
    [nil] when there is none.  The context argument carries nothing that
    the embedded validators read. *)
Record BuildPath (St : Type) : Type := mkBuildPath
  { ValidatePath : St -> St * error }.
Arguments mkBuildPath {St} _.
Arguments ValidatePath {St} _ _.

(** [All] runs all given validations and exits at the first technical
    error. *)
Fixpoint All {St : Type} (validations : list (BuildPath St)) (s : St) : St * error :=
  match validations with
  | [] => (s, None)
  | validatation :: rest =>
      let (s', err) := ValidatePath validatation s in
      match err with
      | Some e => (s', Some e)
      | None => All rest s'
      end
  end.

(** [BuildRunFields] runs field validations against a BuildRun to detect
    disallowed field combinations. *)
Definition BuildRunFields (buildRun : BuildRun) : string * string :=
  let spec := BuildRun_Spec buildRun in
  let ref := BuildRunSpec_Build spec in
  if isNil (ReferencedBuild_Spec ref) && isNil (ReferencedBuild_Name ref) then
    (BuildRunNoRefOrSpec,
     "no build referenced or specified, either 'buildRef' or 'buildSpec' has to be set")
  else
    match ReferencedBuild_Spec ref with
    | Some buildSpec =>
        if negb (isNil (ReferencedBuild_Name ref)) then
          (BuildRunAmbiguousBuild,
           "fields 'buildRef' and 'buildSpec' are mutually exclusive")
        else if negb (isNil (BuildRunSpec_Output spec)) then
          (BuildRunBuildFieldOverrideForbidden,
           "cannot use 'output' override and 'buildSpec' simultaneously")
        else if (0 <? List.length (BuildRunSpec_ParamValues spec))%nat then
          (BuildRunBuildFieldOverrideForbidden,
           "cannot use 'paramValues' override and 'buildSpec' simultaneously")
        else if (0 <? List.length (BuildRunSpec_Env spec))%nat then
          (BuildRunBuildFieldOverrideForbidden,
           "cannot use 'env' override and 'buildSpec' simultaneously")
        else if negb (isNil (BuildRunSpec_Timeout spec)) then
          (BuildRunBuildFieldOverrideForbidden,
           "cannot use 'timeout' override and 'buildSpec' simultaneously")
        else if negb (isNil (BuildSpec_Trigger buildSpec)) then
          (BuildRunBuildFieldOverrideForbidden,
           "cannot use 'triggers' override in the 'BuildRun', only allowed in the 'Build'")
        else (EmptyString, EmptyString)
    | None => (EmptyString, EmptyString)
    end.

(** *** The scheduler-name validator *)
Section SchedulerName.

(** [validation.IsQualifiedName] of [k8s.io/apimachinery], a library
    outside the repository: the list of the syntax errors of a name,
    empty when the name is a qualified name. *)
Variable IsQualifiedName : string -> list string.

(** [(b *SchedulerNameRef) ValidatePath]: the Build behind [b.Build]
    is the state. *)
Definition SchedulerNameRef_ValidatePath (b : Build) : Build * error :=
  if negb (BuildSpec_SchedulerName (Build_Spec b) =? EmptyString) then
    let errs := IsQualifiedName (BuildSpec_SchedulerName (Build_Spec b)) in
    if (0 <? List.length errs)%nat then
      let b := set_Status_Reason (Some SchedulerNameNotValid) b in
      let b := set_Status_Message (Some (strings.Join errs ", ")) b in
      (b, None)
    else (b, None)
  else (b, None).

(** [NewSchedulerName(build)], as a [BuildPath]. *)
Definition NewSchedulerName : BuildPath Build :=
  mkBuildPath SchedulerNameRef_ValidatePath.

End SchedulerName.

(** *** The credentials validator *)

(** Modelled from the spec: what the resource client answers to a [Get],
    the object, NotFound, or a failure of the client (the client is an
    external collaborator, the spec gives its interface). *)
Inductive GetResult : Type :=
| Found
| NotFound
| GetFailed (err : string).

(** Modelled from the spec: the resource client as far as the credentials
    validator uses it, [Get] of the Secret with a namespace and a name. *)
Record Client : Type := mkClient
  { Client_GetSecret : string -> string -> GetResult }.

(** [b.Spec.Source.Git.CloneSecret], as the reconciler suite sets it;
    [Source] and [Git] may be nil. *)
Definition cloneSecret (b : Build) : option string :=
  match BuildSpec_Source (Build_Spec b) with
  | Some source =>
      match Source_Git source with
      | Some git => Git_CloneSecret git
      | None => None
      end
  | None => None
  end.

(** [b.Spec.Output.PushSecret], as the reconciler suite sets it. *)
Definition pushSecret (b : Build) : option string :=
  Image_PushSecret (BuildSpec_Output (Build_Spec b)).

(** Modelled from the spec: the secrets that the credentials validator
    looks up, each with the reason that reports it as missing: the clone
    secret, then the push secret. *)
Definition credentialReferences (b : Build) : list (string * BuildReason) :=
  match cloneSecret b with
  | Some name => [(name, SpecSourceSecretRefNotFound)]
  | None => []
  end ++
  match pushSecret b with
  | Some name => [(name, SpecOutputSecretRefNotFound)]
  | None => []
  end.

(** Modelled from the spec: the lookups of the credentials validator.
    The result is the references that the client does not find, or the
    first error of the client that is not NotFound. *)
Fixpoint missingSecrets (client : Client) (namespace : string)
         (refs : list (string * BuildReason)) : string + list (string * BuildReason) :=
  match refs with
  | [] => inr []
  | (name, reason) :: rest =>
      match Client_GetSecret client namespace name with
      | GetFailed err => inl err
      | Found => missingSecrets client namespace rest
      | NotFound =>
          match missingSecrets client namespace rest with
          | inl err => inl err
          | inr missing => inr ((name, reason) :: missing)
          end
      end
  end.

(** Modelled from the spec: [(s Credentials) ValidatePath], whose text is
    not among the files at hand (the reconciler suite exercises it).  The
    referenced clone and push secrets must exist.  One missing secret is
    reported under its own reason; when both are missing, the reason is
    MultipleSecretRefNotFound and the message lists both names, sorted
    and joined.  An error of the client other than NotFound is returned
    as a technical error and no status is set.  The texts of the messages
    are the ones the reconciler suite expects. *)
Definition Credentials_ValidatePath (client : Client) (b : Build) : Build * error :=
  match missingSecrets client (Build_Namespace b) (credentialReferences b) with
  | inl err => (b, Some err)
  | inr [] => (b, None)
  | inr [(name, reason)] =>
      let b := set_Status_Reason (Some reason) b in
      let b := set_Status_Message (Some ("referenced secret " ++ name ++ " not found")) b in
      (b, None)
  | inr missing =>
      let b := set_Status_Reason (Some MultipleSecretRefNotFound) b in
      let b := set_Status_Message
                 (Some ("missing secrets are "
                        ++ strings.Join (sort.Strings (map fst missing)) ",")) b in
      (b, None)
  end.

(** The validator as a [BuildPath], as [NewValidation] builds it for the
    validation type [Secrets]. *)
Definition NewCredentials (client : Client) : BuildPath Build :=
  mkBuildPath (Credentials_ValidatePath client).

(** *** The registry of validators *)

(** The validation types: the names under which [NewValidation] knows the
    validators. *)
Module types.

(** [Secrets], for validating secret references in Build objects. *)
Definition Secrets : string := "secrets".
(** [Strategies], for validating strategy references in Build objects. *)
Definition Strategies : string := "strategy".
(** [SourceURL], for validating the source URL in Build objects. *)
Definition SourceURL : string := "sourceurl".
(** [Source], for validating [spec.sources] entries. *)
Definition Source : string := "source".
(** [Output], for validating the [spec.output] entry. *)
Definition Output : string := "output".
(** [BuildName], for validating the [metadata.name] entry. *)
Definition BuildName : string := "buildname".
(** [Envs], for validating [spec.env] entries. *)
Definition Envs : string := "env".
(** [OwnerReferences], for validating the owner references between a
    Build and BuildRun objects. *)
Definition OwnerReferences : string := "ownerreferences".
(** [Triggers], for validating the [.spec.triggers] entries. *)
Definition Triggers : string := "triggers".
(** [NodeSelector], for validating the [spec.nodeSelector] entry. *)
Definition NodeSelector : string := "nodeselector".
(** [Tolerations], for validating the [spec.tolerations] entry. *)
Definition Tolerations : string := "tolerations".

End types.

(** The structures that [NewValidation] returns, each with the fields it
    is given: the Build to analyse, and for some the client and the
    scheme.  The three kinds of reference are the types of the arguments
    of [NewValidation]. *)
Module structs.

Inductive Validator (BuildRef ClientRef SchemeRef : Type) : Type :=
| Credentials (Build : BuildRef) (Client : ClientRef)
| Strategy (Build : BuildRef) (Client : ClientRef)
| SourceURLRef (Build : BuildRef) (Client : ClientRef)
| OwnerRef (Build : BuildRef) (Client : ClientRef) (Scheme : SchemeRef)
| SourceRef (Build : BuildRef)
| BuildSpecOutputValidator (Build : BuildRef)
| BuildNameRef (Build : BuildRef)
| Env (Build : BuildRef)
| Trigger (build : BuildRef)
| NodeSelectorRef (Build : BuildRef)
| TolerationsRef (Build : BuildRef).

Arguments Credentials {BuildRef ClientRef SchemeRef} _ _.
Arguments Strategy {BuildRef ClientRef SchemeRef} _ _.
Arguments SourceURLRef {BuildRef ClientRef SchemeRef} _ _.
Arguments OwnerRef {BuildRef ClientRef SchemeRef} _ _ _.
Arguments SourceRef {BuildRef ClientRef SchemeRef} _.
Arguments BuildSpecOutputValidator {BuildRef ClientRef SchemeRef} _.
Arguments BuildNameRef {BuildRef ClientRef SchemeRef} _.
Arguments Env {BuildRef ClientRef SchemeRef} _.
Arguments Trigger {BuildRef ClientRef SchemeRef} _.
Arguments NodeSelectorRef {BuildRef ClientRef SchemeRef} _.
Arguments TolerationsRef {BuildRef ClientRef SchemeRef} _.

End structs.

Section Registry.

Variables BuildRef ClientRef SchemeRef : Type.

(** [NewValidation] returns a specific structure that implements the
    [BuildPath] interface, or nil and an error for a validation type that
    it does not know. *)
Definition NewValidation (validationType : string) (build : BuildRef)
           (client : ClientRef) (scheme : SchemeRef)
  : option (structs.Validator BuildRef ClientRef SchemeRef) * error :=
  if validationType =? types.Secrets then
    (Some (structs.Credentials build client), None)
  else if validationType =? types.Strategies then
    (Some (structs.Strategy build client), None)
  else if validationType =? types.SourceURL then
    (Some (structs.SourceURLRef build client), None)
  else if validationType =? types.OwnerReferences then
    (Some (structs.OwnerRef build client scheme), None)
  else if validationType =? types.Source then
    (Some (structs.SourceRef build), None)
  else if validationType =? types.Output then
    (Some (structs.BuildSpecOutputValidator build), None)
  else if validationType =? types.BuildName then
    (Some (structs.BuildNameRef build), None)
  else if validationType =? types.Envs then
    (Some (structs.Env build), None)
  else if validationType =? types.Triggers then
    (Some (structs.Trigger build), None)
  else if validationType =? types.NodeSelector then
    (Some (structs.NodeSelectorRef build), None)
  else if validationType =? types.Tolerations then
    (Some (structs.TolerationsRef build), None)
  else
    (None, Some "unknown validation type").

End Registry.

End validate.

(** ** API types of [pkg/apis/build/v1alpha1]

    The version of the API that packages [resources] and [sources] work on. *)
Module v1alpha1.

(** [spec.source]: always Git. *)
Record Source : Type := mkSource
  { Source_URL : string;
    Source_Revision : option string;
    Source_ContextDir : option string }.

(** An entry of [spec.sources]: today, an HTTP source. *)
Record BuildSource : Type := mkBuildSource
  { BuildSource_Name : string;
    BuildSource_URL : string }.

Record BuildSpec : Type := mkBuildSpec
  { BuildSpec_Source : Source;
    BuildSpec_Sources : option (list BuildSource) }.

Record Build : Type := mkBuild
  { Build_Name : string;
    Build_Spec : BuildSpec }.

Record Failure : Type := mkFailure
  { Failure_Reason : string;
    Failure_Message : string }.

Record BuildRunStatus : Type := mkBuildRunStatus
  { BuildRunStatus_Reason : string;
    BuildRunStatus_Failure : option Failure }.

Record BuildRun : Type := mkBuildRun
  { BuildRun_Name : string;
    BuildRun_Status : BuildRunStatus }.

(** The assignment [buildRun.Status.Failure = f]. *)
Definition set_Status_Failure (f : option Failure) (buildRun : BuildRun) : BuildRun :=
  mkBuildRun (BuildRun_Name buildRun)
             (mkBuildRunStatus (BuildRunStatus_Reason (BuildRun_Status buildRun)) f).

(** The auxiliary sources of a Build, none when [spec.sources] is nil. *)
Definition auxiliary (build : Build) : list BuildSource :=
  match BuildSpec_Sources (Build_Spec build) with
  | Some sources => sources
  | None => []
  end.

End v1alpha1.

(** ** Types of the pipeline engine

    [tektoncd/pipeline/pkg/apis/pipeline/v1beta1], [knative.dev/pkg/apis]
    and [k8s.io/api/core/v1], as far as package [resources] reads them. *)
Module tekton.

(** Modelled from the spec: a step of the task template, a stable name
    and a content descriptor, which is a fetch instruction for a source
    or a build and push instruction. *)
Inductive StepContent : Type :=
| FetchInstruction (args : list string)
| BuildPushInstruction (args : list string).

Record Step : Type := mkStep
  { Step_Name : string;
    Step_Content : StepContent }.

Definition set_Name (name : string) (step : Step) : Step :=
  mkStep name (Step_Content step).

Record TaskSpec : Type := mkTaskSpec
  { TaskSpec_Steps : list Step }.

(** [apis.ConditionSucceeded] and [apis.ConditionReady], the types of
    conditions. *)
Definition ConditionSucceeded : string := "Succeeded".
Definition ConditionReady : string := "Ready".
(** [v1beta1.TaskRunReasonFailed.String()]. *)
Definition TaskRunReasonFailed : string := "Failed".

Record Condition : Type := mkCondition
  { Condition_Type : string;
    Condition_Status : string;
    Condition_Reason : string }.

Record ContainerStateTerminated : Type := mkContainerStateTerminated
  { ContainerStateTerminated_Message : string }.

Record StepState : Type := mkStepState
  { StepState_Terminated : option ContainerStateTerminated }.

Record TaskRunStatus : Type := mkTaskRunStatus
  { TaskRunStatus_Conditions : list Condition;
    TaskRunStatus_Steps : list StepState }.

Record TaskRun : Type := mkTaskRun
  { TaskRun_Status : TaskRunStatus }.

Record PipelineResourceResult : Type := mkPipelineResourceResult
  { PipelineResourceResult_Key : string;
    PipelineResourceResult_Value : string }.

(** [taskRun.Status.GetCondition(t)]: the first condition of type [t]. *)
Definition GetCondition (taskRun : TaskRun) (t : string) : option Condition :=
  find (fun cond => Condition_Type cond =? t)
       (TaskRunStatus_Conditions (TaskRun_Status taskRun)).

End tekton.

(** ** [encoding/json], for termination messages

    The extractor is stated over any decoder of termination messages.
    This module decodes and encodes the wire format of the results, an
    array of objects with string members, for members free of escape
    sequences; it instantiates the decoder on concrete messages. *)
Module json.
Import tekton.

Definition quote : ascii := "034"%char.
Definition backslash : ascii := "092"%char.

Definition isSpace (c : ascii) : bool :=
  Ascii.eqb c " " || Ascii.eqb c "009" || Ascii.eqb c "010" || Ascii.eqb c "013".

(** Where the decoder stands in the text. *)
Inductive state : Type :=
| BeforeArray
| InArray
| BeforeObject
| InObject
| BeforeMember
| InName (name : string)
| BeforeColon (name : string)
| BeforeValue (name : string)
| InValue (name value : string)
| AfterMember
| AfterObject
| AfterArray.

(** The struct tags of [PipelineResourceResult]: member [key] is field
    [Key], member [value] is field [Value]; other members are ignored. *)
Definition setMember (name value : string) (r : PipelineResourceResult)
  : PipelineResourceResult :=
  if name =? "key" then mkPipelineResourceResult value (PipelineResourceResult_Value r)
  else if name =? "value" then mkPipelineResourceResult (PipelineResourceResult_Key r) value
  else r.

Definition snoc (s : string) (c : ascii) : string := s ++ String c EmptyString.

Definition config : Type := state * PipelineResourceResult * list PipelineResourceResult.

Definition zero : PipelineResourceResult := mkPipelineResourceResult EmptyString EmptyString.

Definition inString (c : ascii) (grow : string -> state) (close : config)
           (s : string) (cur : PipelineResourceResult)
           (out : list PipelineResourceResult) : option config :=
  if Ascii.eqb c quote then Some close
  else if Ascii.eqb c backslash then None
  else if (nat_of_ascii c <? 32)%nat then None
  else Some (grow (snoc s c), cur, out).

Definition step (cfg : config) (c : ascii) : option config :=
  let '(st, cur, out) := cfg in
  match st with
  | InName name => inString c InName (BeforeColon name, cur, out) name cur out
  | InValue name value =>
      inString c (InValue name) (AfterMember, setMember name value cur, out) value cur out
  | _ =>
      if isSpace c then Some cfg
      else
        match st with
        | BeforeArray => if Ascii.eqb c "[" then Some (InArray, cur, out) else None
        | InArray =>
            if Ascii.eqb c "{" then Some (InObject, zero, out)
            else if Ascii.eqb c "]" then Some (AfterArray, cur, out)
            else None
        | BeforeObject => if Ascii.eqb c "{" then Some (InObject, zero, out) else None
        | InObject =>
            if Ascii.eqb c quote then Some (InName EmptyString, cur, out)
            else if Ascii.eqb c "}" then Some (AfterObject, cur, (out ++ [cur])%list)
            else None
        | BeforeMember =>
            if Ascii.eqb c quote then Some (InName EmptyString, cur, out) else None
        | BeforeColon name => if Ascii.eqb c ":" then Some (BeforeValue name, cur, out) else None
        | BeforeValue name =>
            if Ascii.eqb c quote then Some (InValue name EmptyString, cur, out) else None
        | AfterMember =>
            if Ascii.eqb c "," then Some (BeforeMember, cur, out)
            else if Ascii.eqb c "}" then Some (AfterObject, cur, (out ++ [cur])%list)
            else None
        | AfterObject =>
            if Ascii.eqb c "," then Some (BeforeObject, cur, out)
            else if Ascii.eqb c "]" then Some (AfterArray, cur, out)
            else None
        | _ => None
        end
  end.

Fixpoint run (cfg : config) (text : string) : option config :=
  match text with
  | EmptyString => Some cfg
  | String c rest =>
      match step cfg c with
      | Some cfg' => run cfg' rest
      | None => None
      end
  end.

(** [json.Unmarshal(data, &results)] with [results] a slice of
    [PipelineResourceResult]: the entries, or no entries when [data] is
    not an array of this form. *)
Definition Unmarshal (data : string) : option (list PipelineResourceResult) :=
  match run (BeforeArray, zero, []) data with
  | Some (AfterArray, _, out) => Some out
  | _ => None
  end.

Definition quoted (s : string) : string := String quote (snoc s quote).

Definition marshalResult (r : PipelineResourceResult) : string :=
  "{" ++ quoted "key" ++ ":" ++ quoted (PipelineResourceResult_Key r) ++ ","
      ++ quoted "value" ++ ":" ++ quoted (PipelineResourceResult_Value r) ++ "}".

(** [json.Marshal(results)]. *)
Definition Marshal (results : list PipelineResourceResult) : string :=
  "[" ++ String.concat "," (map marshalResult results) ++ "]".

(** The bytes that a JSON string holds as they are: not the quote, not
    the backslash, no control character. *)
Definition plainChar (c : ascii) : bool :=
  negb (Ascii.eqb c quote) && negb (Ascii.eqb c backslash)
  && negb (nat_of_ascii c <? 32)%nat.

Fixpoint plain (s : string) : bool :=
  match s with
  | EmptyString => true
  | String c rest => plainChar c && plain rest
  end.

Definition plainResult (r : PipelineResourceResult) : bool :=
  plain (PipelineResourceResult_Key r) && plain (PipelineResourceResult_Value r).

End json.

(** ** Package [resources] *)
Module resources.
Import v1alpha1 tekton.

(** *** Source steps *)
Section Sources.

(** [config.Config], which only the step builders read. *)
Variable Config : Type.

(** The builders of package [sources], one per kind of source: each a
    function from the configuration and the source descriptor to a
    step. *)
Variable gitStep : Config -> Source -> Step.
Variable httpStep : Config -> BuildSource -> Step.

(** Modelled from the spec: [sources.AppendGitStep], whose text is not
    among the files at hand.  It appends to the task template one step
    for the Git source, built by the Git builder and named by the
    caller. *)
Definition AppendGitStep (cfg : Config) (taskSpec : TaskSpec) (source : Source)
           (name : string) : TaskSpec :=
  mkTaskSpec (TaskSpec_Steps taskSpec ++ [set_Name name (gitStep cfg source)]).

(** Modelled from the spec: [sources.AppendHttpStep], whose text is not
    among the files at hand.  It appends to the task template one step
    for the HTTP source, built by the HTTP builder. *)
Definition AppendHttpStep (cfg : Config) (taskSpec : TaskSpec) (source : BuildSource)
  : TaskSpec :=
  mkTaskSpec (TaskSpec_Steps taskSpec ++ [httpStep cfg source]).

(** [AmendTaskSpecWithSources]: the task template behind [taskSpec] is
    passed in and returned. *)
Definition AmendTaskSpecWithSources (cfg : Config) (taskSpec : TaskSpec) (build : Build)
  : TaskSpec :=
  (* create the step for spec.source, this is always Git *)
  let taskSpec := AppendGitStep cfg taskSpec (BuildSpec_Source (Build_Spec build)) "default" in
  (* create the step for spec.sources *)
  match BuildSpec_Sources (Build_Spec build) with
  | Some sources =>
      fold_left (fun taskSpec source => AppendHttpStep cfg taskSpec source) sources taskSpec
  | None => taskSpec
  end.

End Sources.

(** *** Failure extraction *)
Section Failures.

(** The prefix of the names of parameters, results and volumes, a
    constant of the package whose declaration is not among the files at
    hand. *)
Variable prefixParamsResultsVolumes : string.

(** [json.Unmarshal] into a slice of results: the entries of a
    termination message, or nothing when the message does not parse. *)
Variable Unmarshal : string -> option (list PipelineResourceResult).

(** Modelled from the spec: the names of the two results, which the
    spec gives after the prefix and its dash. *)
Definition resultErrorReason : string := "result-error-reason".
(** Modelled from the spec: the name of the result that carries the
    message. *)
Definition resultErrorMessage : string := "result-error-message".

(** [fmt.Sprintf("%s-%s", prefixParamsResultsVolumes, name)], as the
    suite builds the keys. *)
Definition errorReasonKey : string :=
  prefixParamsResultsVolumes ++ "-" ++ resultErrorReason.
(** The key of the message, built the same way. *)
Definition errorMessageKey : string :=
  prefixParamsResultsVolumes ++ "-" ++ resultErrorMessage.

(** Modelled from the spec: the scan of the steps by the extractor.  The
    result is the entries of the first step, in the order of the steps,
    whose termination message is present and parses. *)
Fixpoint firstResults (steps : list StepState) : option (list PipelineResourceResult) :=
  match steps with
  | [] => None
  | step :: rest =>
      match StepState_Terminated step with
      | Some terminated =>
          match Unmarshal (ContainerStateTerminated_Message terminated) with
          | Some results => Some results
          | None => firstResults rest
          end
      | None => firstResults rest
      end
  end.

(** A step without a termination message, or with one that does not
    parse. *)
Definition noResults (step : StepState) : Prop :=
  forall terminated,
    StepState_Terminated step = Some terminated ->
    Unmarshal (ContainerStateTerminated_Message terminated) = None.

(** Modelled from the spec: the search for a well-known key among the
    entries of a step; the value is the one of the first entry with the
    key. *)
Definition lookupResult (key : string) (results : list PipelineResourceResult)
  : option string :=
  option_map PipelineResourceResult_Value
             (find (fun r => PipelineResourceResult_Key r =? key) results).

(** Modelled from the spec: the failure that the extractor recovers from
    a TaskRun, when the step that is scanned has both keys. *)
Definition extractFailure (taskRun : TaskRun) : option Failure :=
  match firstResults (TaskRunStatus_Steps (TaskRun_Status taskRun)) with
  | Some results =>
      match lookupResult errorReasonKey results, lookupResult errorMessageKey results with
      | Some reason, Some message => Some (mkFailure reason message)
      | _, _ => None
      end
  | None => None
  end.

(** Modelled from the spec: [UpdateBuildRunUsingTaskFailures], whose
    text is not among the files at hand; its suite is.  Nothing is done
    unless the completion condition, the condition of type Succeeded,
    is there and has the reason Failed.  Otherwise the steps are
    scanned in order; in the first step whose termination message
    parses as an array of results, the two well-known keys are looked
    up, other keys are ignored.  When both are found, the failure of
    the BuildRun is set to their values; when one is missing, or no
    message is present and parses, the failure is left as it is.  The
    status of the condition is not read: the first case of the suite
    builds its condition from the type and the reason alone and expects
    the failure to be set. *)
Definition UpdateBuildRunUsingTaskFailures (buildRun : BuildRun) (taskRun : TaskRun)
  : BuildRun :=
  match GetCondition taskRun ConditionSucceeded with
  | Some trCondition =>
      if Condition_Reason trCondition =? TaskRunReasonFailed then
        match extractFailure taskRun with
        | Some failure => set_Status_Failure (Some failure) buildRun
        | None => buildRun
        end
      else buildRun
  | None => buildRun
  end.

End Failures.

End resources.

(** ** Observing a chain

    Two devices to observe what [validate.All] does with its validators:
    a validator that reports a given semantic failure, and a wrapper that
    makes a validator record its invocation. *)
Module observe.
Import v1beta1 validate.

(** A validator that finds its concern violated: it sets the reason and
    the message and returns no error. *)
Definition reject (reason : BuildReason) (message : string) : BuildPath Build :=
  mkBuildPath (fun b =>
    let b := set_Status_Reason (Some reason) b in
    let b := set_Status_Message (Some message) b in
    (b, None)).

(** The validator [v] with a side effect added: each invocation appends
    the index [i] to a log that is part of the state. *)
Definition logged {St : Type} (i : nat) (v : BuildPath St) : BuildPath (St * list nat) :=
  mkBuildPath (fun sl =>
    let (s', err) := ValidatePath v (fst sl) in
    ((s', (snd sl ++ [i])%list), err)).

(** The validators of a chain, each recording its position, counted
    from [i]. *)
Fixpoint instrument {St : Type} (i : nat) (validations : list (BuildPath St))
  : list (BuildPath (St * list nat)) :=
  match validations with
  | [] => []
  | v :: rest => logged i v :: instrument (S i) rest
  end.

(** The validators of [validations] run one after the other from [s],
    each returns no error, and [s'] is the state they leave. *)
Inductive NoError {St : Type} : list (BuildPath St) -> St -> St -> Prop :=
| NoError_nil : forall s, NoError [] s s
| NoError_cons : forall v rest s s1 s',
    ValidatePath v s = (s1, None) ->
    NoError rest s1 s' ->
    NoError (v :: rest) s s'.

(** What the scheduler-name validator writes when it finds the name
    invalid: the reason, then the message. *)
Definition reported (errs : list string) (b : Build) : Build :=
  set_Status_Message (Some (strings.Join errs ", "))
                     (set_Status_Reason (Some SchedulerNameNotValid) b).

End observe.

(** ** The override fields of a BuildRun

    What the field-conflict checker is specified against: the fields of a
    BuildRun that override the Build, in the order in which they are
    examined. *)
Module overrides.
Import v1beta1.

(** Each override field with the name that the messages give it and
    whether it is set.  The trigger is the one of the inline spec. *)
Definition fields (buildRun : BuildRun) (buildSpec : BuildSpec) : list (string * bool) :=
  let spec := BuildRun_Spec buildRun in
  [ ("output", negb (isNil (BuildRunSpec_Output spec)));
    ("paramValues", negb (List.length (BuildRunSpec_ParamValues spec) =? 0)%nat);
    ("env", negb (List.length (BuildRunSpec_Env spec) =? 0)%nat);
    ("timeout", negb (isNil (BuildRunSpec_Timeout spec)));
    ("triggers", negb (isNil (BuildSpec_Trigger buildSpec))) ].

Definition names : list string :=
  ["output"; "paramValues"; "env"; "timeout"; "triggers"].

(** The first field of the list that is set. *)
Definition firstSet (fs : list (string * bool)) : option string :=
  option_map fst (find snd fs).

(** A message names a field when it contains the name between single
    quotes. *)
Definition named (message field : string) : bool :=
  strings.Contains message ("'" ++ field ++ "'").

End overrides.

(** ** Sample objects *)
Module samples.
Import v1beta1.

Definition image : Image := mkImage "image-registry/build/sample" None None.

(** A Build whose scheduler name is not a qualified name. *)
Definition buildWithBadSchedulerName : Build :=
  mkBuild "buildah-golang-build" "build-examples"
          (mkBuildSpec None None image "-not-a-qualified-name")
          (mkBuildStatus None None).

(** The Build of the reconciler suite whose two secrets do not exist. *)
Definition buildWithMissingSecrets : Build :=
  mkBuild "buildah-golang-build" "build-examples"
          (mkBuildSpec
             (Some (mkSource (Some (mkGit "https://github.com/shipwright-io/sample-go"
                                          (Some "non-existing-source")))))
             None
             (mkImage "image-registry/build/sample" (Some "non-existing-output") None)
             EmptyString)
          (mkBuildStatus None None).

(** A client in whose cluster there is no Secret. *)
Definition clientWithoutSecrets : validate.Client :=
  validate.mkClient (fun _ _ => validate.NotFound).

(** A BuildRun that refers to a Build by name and overrides the output,
    the parameters, the environment and the timeout. *)
Definition buildRunWithReferenceAndOverrides : BuildRun :=
  mkBuildRun "run"
    (mkBuildRunSpec (mkReferencedBuild None (Some "buildah-golang-build"))
                    (Some 60) [mkParamValue "dockerfile" (Some "Dockerfile")]
                    (Some image) [mkEnvVar "KEY" "value"]).

(** A validator that has found the node selector invalid, as an earlier
    validator of a chain. *)
Definition nodeSelectorFailure : validate.BuildPath Build :=
  observe.reject NodeSelectorNotValid "name part must be no more than 63 characters".

(** The objects of the suite of the failure extractor.  The prefix of
    the keys is a sample value. *)
Definition prefix : string := "shp".

Definition errorReason : tekton.PipelineResourceResult :=
  tekton.mkPipelineResourceResult (resources.errorReasonKey prefix) "val1".
Definition errorMessage : tekton.PipelineResourceResult :=
  tekton.mkPipelineResourceResult (resources.errorMessageKey prefix) "val2".
Definition unrelated : tekton.PipelineResourceResult :=
  tekton.mkPipelineResourceResult "unrelated" "unrelated".

Definition failedStep : tekton.StepState :=
  tekton.mkStepState
    (Some (tekton.mkContainerStateTerminated
             (json.Marshal [errorReason; errorMessage; unrelated]))).

(** The failed TaskRun of the first case of the suite: its condition has
    the type Succeeded and the reason Failed, and no status. *)
Definition redTaskRun : tekton.TaskRun :=
  tekton.mkTaskRun
    (tekton.mkTaskRunStatus
       [tekton.mkCondition tekton.ConditionSucceeded EmptyString tekton.TaskRunReasonFailed]
       [failedStep]).


Definition redBuild : v1alpha1.BuildRun :=
  v1alpha1.mkBuildRun EmptyString (v1alpha1.mkBuildRunStatus EmptyString None).

(** The failed TaskRun of the second case: its step carries an unrelated
    result only. *)
Definition redTaskRunWithoutError : tekton.TaskRun :=
  tekton.mkTaskRun
    (tekton.mkTaskRunStatus
       [tekton.mkCondition tekton.ConditionSucceeded EmptyString tekton.TaskRunReasonFailed]
       [tekton.mkStepState
          (Some (tekton.mkContainerStateTerminated (json.Marshal [unrelated])))]).

(** The TaskRuns of the last three cases: a condition of type Succeeded
    without a reason, a condition of type Ready, and a condition of type
    Succeeded with an unknown reason. *)
Definition greenTaskRun : tekton.TaskRun :=
  tekton.mkTaskRun
    (tekton.mkTaskRunStatus
       [tekton.mkCondition tekton.ConditionSucceeded EmptyString EmptyString] []).

Definition unfinishedTaskRun : tekton.TaskRun :=
  tekton.mkTaskRun
    (tekton.mkTaskRunStatus
       [tekton.mkCondition tekton.ConditionReady EmptyString EmptyString] []).

Definition unknownTaskRun : tekton.TaskRun :=
  tekton.mkTaskRun
    (tekton.mkTaskRunStatus
       [tekton.mkCondition tekton.ConditionSucceeded EmptyString "random"] []).

(** The Builds of the reconciler suite with one missing secret: the clone
    secret, and the push secret. *)
Definition buildWithMissingCloneSecret : Build :=
  mkBuild "buildah-golang-build" "build-examples"
          (mkBuildSpec
             (Some (mkSource (Some (mkGit "https://github.com/shipwright-io/sample-go"
                                          (Some "non-existing")))))
             None image EmptyString)
          (mkBuildStatus None None).

Definition buildWithMissingPushSecret : Build :=
  mkBuild "buildah-golang-build" "build-examples"
          (mkBuildSpec
             (Some (mkSource (Some (mkGit "https://github.com/shipwright-io/sample-go" None))))
             None
             (mkImage "image-registry/build/sample" (Some "registry-secret") None)
             EmptyString)
          (mkBuildStatus None None).

(** The key of the invalid node selector of the reconciler suite:
    [strings.Repeat("s", 64)]. *)
Definition longName : string :=
  string_of_list_ascii (repeat "s"%char 64).

End samples.

(** ** Readings of the objects

    What the properties of the embedded functions are stated with. *)
Module readings.
Import v1beta1.

(** The validation types in the order of their declaration. *)
Definition validationTypes : list string :=
  [ validate.types.Secrets; validate.types.Strategies; validate.types.SourceURL;
    validate.types.Source; validate.types.Output; validate.types.BuildName;
    validate.types.Envs; validate.types.OwnerReferences; validate.types.Triggers;
    validate.types.NodeSelector; validate.types.Tolerations ].

(** The name of the structure behind a validator. *)
Definition structName {B C S : Type} (v : validate.structs.Validator B C S) : string :=
  match v with
  | validate.structs.Credentials _ _ => "Credentials"
  | validate.structs.Strategy _ _ => "Strategy"
  | validate.structs.SourceURLRef _ _ => "SourceURLRef"
  | validate.structs.OwnerRef _ _ _ => "OwnerRef"
  | validate.structs.SourceRef _ => "SourceRef"
  | validate.structs.BuildSpecOutputValidator _ => "BuildSpecOutputValidator"
  | validate.structs.BuildNameRef _ => "BuildNameRef"
  | validate.structs.Env _ => "Env"
  | validate.structs.Trigger _ => "Trigger"
  | validate.structs.NodeSelectorRef _ => "NodeSelectorRef"
  | validate.structs.TolerationsRef _ => "TolerationsRef"
  end.

(** The Build that a validator holds. *)
Definition buildOf {B C S : Type} (v : validate.structs.Validator B C S) : B :=
  match v with
  | validate.structs.Credentials b _ => b
  | validate.structs.Strategy b _ => b
  | validate.structs.SourceURLRef b _ => b
  | validate.structs.OwnerRef b _ _ => b
  | validate.structs.SourceRef b => b
  | validate.structs.BuildSpecOutputValidator b => b
  | validate.structs.BuildNameRef b => b
  | validate.structs.Env b => b
  | validate.structs.Trigger b => b
  | validate.structs.NodeSelectorRef b => b
  | validate.structs.TolerationsRef b => b
  end.

(** The trigger of the inline spec of a BuildRun, nil when there is no
    inline spec. *)
Definition inlineTrigger (buildRun : BuildRun) : option Trigger :=
  match ReferencedBuild_Spec (BuildRunSpec_Build (BuildRun_Spec buildRun)) with
  | Some buildSpec => BuildSpec_Trigger buildSpec
  | None => None
  end.

(** What is present in a BuildRun: for the inline spec, the reference,
    the output, the timeout and the trigger of the inline spec, whether
    the pointer is nil; for the parameters and the environment, whether
    the slice is empty. *)
Definition presence (buildRun : BuildRun) : list bool :=
  let spec := BuildRun_Spec buildRun in
  [ isNil (ReferencedBuild_Spec (BuildRunSpec_Build spec));
    isNil (ReferencedBuild_Name (BuildRunSpec_Build spec));
    isNil (BuildRunSpec_Output spec);
    (List.length (BuildRunSpec_ParamValues spec) =? 0)%nat;
    (List.length (BuildRunSpec_Env spec) =? 0)%nat;
    isNil (BuildRunSpec_Timeout spec);
    isNil (inlineTrigger buildRun) ].

(** A BuildRun without a conflict: either a reference and no inline
    spec, or an inline spec, no reference and no override. *)
Definition conflictFree (buildRun : BuildRun) : Prop :=
  let spec := BuildRun_Spec buildRun in
  (ReferencedBuild_Spec (BuildRunSpec_Build spec) = None /\
   ReferencedBuild_Name (BuildRunSpec_Build spec) <> None)
  \/
  (ReferencedBuild_Spec (BuildRunSpec_Build spec) <> None /\
   ReferencedBuild_Name (BuildRunSpec_Build spec) = None /\
   BuildRunSpec_Output spec = None /\
   BuildRunSpec_ParamValues spec = [] /\
   BuildRunSpec_Env spec = [] /\
   BuildRunSpec_Timeout spec = None /\
   inlineTrigger buildRun = None).

(** The effect of a validator on the state, its error dropped. *)
Definition effect {St : Type} (s : St) (v : validate.BuildPath St) : St :=
  fst (validate.ValidatePath v s).

(** A chain as one validator. *)
Definition asValidator {St : Type} (chain : list (validate.BuildPath St))
  : validate.BuildPath St :=
  validate.mkBuildPath (validate.All chain).

End readings.

(** * Properties *)

(** ** The field-conflict checker *)
Module BuildRunFieldsFacts.
Import v1beta1 validate overrides.

Ltac break_buildRun br :=
  destruct br as [runName [[inline ref] timeout params output env]];
  destruct inline as [[src trigger out sched]|]; destruct ref;
  destruct timeout; destruct params; destruct output; destruct env;
  try destruct trigger.

(** C2.  [BuildRunFields] applies its rules in a fixed order, the first
    match wins: (1) with neither an inline spec nor a reference the
    reason is NoRefOrSpec; (2) with both the reason is AmbiguousBuild,
    whatever the override fields hold; (3) with an inline spec, no
    reference and some override field set, the reason is
    BuildFieldOverrideForbidden and the message names the first field
    that is set, in the order output, paramValues, env, timeout, trigger
    (the message calls the last one 'triggers'), and names no other
    field; (4) in every other case the result is the pair of empty
    strings.  The function is total and returns a value computed from
    its argument alone. *)
Theorem BuildRunFields_first_match_wins (buildRun : BuildRun) :
  (ReferencedBuild_Spec (BuildRunSpec_Build (BuildRun_Spec buildRun)) = None ->
   ReferencedBuild_Name (BuildRunSpec_Build (BuildRun_Spec buildRun)) = None ->
   fst (BuildRunFields buildRun) = BuildRunNoRefOrSpec)
  /\
  (forall buildSpec name,
     ReferencedBuild_Spec (BuildRunSpec_Build (BuildRun_Spec buildRun)) = Some buildSpec ->
     ReferencedBuild_Name (BuildRunSpec_Build (BuildRun_Spec buildRun)) = Some name ->
     fst (BuildRunFields buildRun) = BuildRunAmbiguousBuild)
  /\
  (forall buildSpec field,
     ReferencedBuild_Spec (BuildRunSpec_Build (BuildRun_Spec buildRun)) = Some buildSpec ->
     ReferencedBuild_Name (BuildRunSpec_Build (BuildRun_Spec buildRun)) = None ->
     firstSet (fields buildRun buildSpec) = Some field ->
     exists message,
       BuildRunFields buildRun = (BuildRunBuildFieldOverrideForbidden, message) /\
       named message field = true /\
       forall other, In other names -> other <> field -> named message other = false)
  /\
  ((ReferencedBuild_Spec (BuildRunSpec_Build (BuildRun_Spec buildRun)) = None /\
    ReferencedBuild_Name (BuildRunSpec_Build (BuildRun_Spec buildRun)) <> None)
   \/ (exists buildSpec,
         ReferencedBuild_Spec (BuildRunSpec_Build (BuildRun_Spec buildRun)) = Some buildSpec /\
         ReferencedBuild_Name (BuildRunSpec_Build (BuildRun_Spec buildRun)) = None /\
         firstSet (fields buildRun buildSpec) = None) ->
   BuildRunFields buildRun = (EmptyString, EmptyString)).
Proof.
  split; [|split; [|split]].
  - intros Hspec Hname.
    break_buildRun buildRun; simpl in Hspec, Hname; first [discriminate | reflexivity].
  - intros buildSpec name Hspec Hname.
    break_buildRun buildRun; simpl in Hspec, Hname; first [discriminate | reflexivity].
  - intros buildSpec field Hspec Hname Hfirst.
    break_buildRun buildRun; simpl in Hspec, Hname; try discriminate;
      injection Hspec as <-; cbv in Hfirst; try discriminate;
      injection Hfirst as <-;
      (eexists; split; [reflexivity|]; split; [vm_compute; reflexivity|];
       intros other Hin Hneq;
       repeat (destruct Hin as [<-|Hin]; [first [congruence | vm_compute; reflexivity]|]);
       destruct Hin).
  - intros [[Hspec Hname]|[buildSpec [Hspec [Hname Hfirst]]]].
    + break_buildRun buildRun; simpl in Hspec, Hname;
        first [discriminate | congruence | reflexivity].
    + break_buildRun buildRun; simpl in Hspec, Hname; try discriminate;
        injection Hspec as <-; cbv in Hfirst; try discriminate; reflexivity.
Qed.

(** C10.  With no inline spec and a reference to a Build, the result is
    the pair of empty strings, whatever the output, paramValues, env and
    timeout overrides hold. *)
Theorem BuildRunFields_reference_allows_overrides (buildRun : BuildRun) (name : string) :
  ReferencedBuild_Spec (BuildRunSpec_Build (BuildRun_Spec buildRun)) = None ->
  ReferencedBuild_Name (BuildRunSpec_Build (BuildRun_Spec buildRun)) = Some name ->
  BuildRunFields buildRun = (EmptyString, EmptyString).
Proof.
  intros Hspec Hname.
  unfold BuildRunFields. rewrite Hspec, Hname. reflexivity.
Qed.

Lemma BuildRunFields_reference_with_overrides_sample :
  BuildRunSpec_Output (BuildRun_Spec samples.buildRunWithReferenceAndOverrides) <> None /\
  BuildRunSpec_ParamValues (BuildRun_Spec samples.buildRunWithReferenceAndOverrides) <> [] /\
  BuildRunSpec_Env (BuildRun_Spec samples.buildRunWithReferenceAndOverrides) <> [] /\
  BuildRunSpec_Timeout (BuildRun_Spec samples.buildRunWithReferenceAndOverrides) <> None /\
  BuildRunFields samples.buildRunWithReferenceAndOverrides = (EmptyString, EmptyString).
Proof.
  do 4 (split; [discriminate|]).
  apply (BuildRunFields_reference_allows_overrides
           samples.buildRunWithReferenceAndOverrides "buildah-golang-build");
    reflexivity.
Defined.

End BuildRunFieldsFacts.

(** ** The chain runner *)
Module ChainFacts.
Import v1beta1 validate observe.
Local Open Scope list_scope.

Section Runner.
Context {St : Type}.
Implicit Types (v : BuildPath St) (s : St).

Lemma All_cons_nil v rest s s' :
  ValidatePath v s = (s', None) -> All (v :: rest) s = All rest s'.
Proof. intros H. simpl. rewrite H. reflexivity. Qed.

(** A chain in two parts: the second part runs from where the first
    part ends, unless the first part returns an error. *)
Lemma All_app (vs ws : list (BuildPath St)) s :
  All (vs ++ ws) s =
  match All vs s with
  | (s1, None) => All ws s1
  | (s1, Some e) => (s1, Some e)
  end.
Proof.
  revert s. induction vs as [|v vs IH]; intros s; simpl.
  - reflexivity.
  - destruct (ValidatePath v s) as [s1 [e|]]; [reflexivity | apply IH].
Qed.

Lemma NoError_All (vs : list (BuildPath St)) s s' :
  NoError vs s s' -> All vs s = (s', None).
Proof.
  induction 1 as [|v rest s s1 s' Hv _ IH]; [reflexivity|].
  rewrite (All_cons_nil _ _ _ _ Hv). exact IH.
Qed.

Lemma All_logged_cons i v rest s log :
  All (instrument i (v :: rest)) (s, log) =
  match ValidatePath v s with
  | (s1, Some e) => ((s1, log ++ [i]), Some e)
  | (s1, None) => All (instrument (S i) rest) (s1, log ++ [i])
  end.
Proof. simpl. destruct (ValidatePath v s) as [s1 [e|]]; reflexivity. Qed.

(** What a run of a chain is, with the log of the invocations: either
    every validator returns no error, all are invoked, in order; or the
    chain splits at the first validator that returns an error, the ones
    up to it are invoked, in order, and none after it. *)
Lemma All_log_from (vs : list (BuildPath St)) s i log :
  (exists s',
      NoError vs s s' /\
      All vs s = (s', None) /\
      All (instrument i vs) (s, log) = ((s', log ++ seq i (List.length vs)), None))
  \/
  (exists pre v post s1 s2 e,
      vs = pre ++ v :: post /\
      NoError pre s s1 /\
      ValidatePath v s1 = (s2, Some e) /\
      All vs s = (s2, Some e) /\
      All (instrument i vs) (s, log)
      = ((s2, log ++ seq i (S (List.length pre))), Some e)).
Proof.
  revert s i log. induction vs as [|v vs IH]; intros s i log.
  - left. exists s. simpl. rewrite app_nil_r. repeat split. constructor.
  - rewrite All_logged_cons.
    destruct (ValidatePath v s) as [s1 [e|]] eqn:Hv.
    + right. exists [], v, vs, s, s1, e. simpl. rewrite Hv.
      repeat split; constructor.
    + destruct (IH s1 (S i) (log ++ [i])) as
        [[s' [Hno [Hall Hlog]]] | [pre [w [post [t1 [t2 [e [Hvs [Hno [Hw [Hall Hlog]]]]]]]]]]].
      * left. exists s'. split; [econstructor; eassumption|].
        split; [rewrite (All_cons_nil _ _ _ _ Hv); exact Hall|].
        rewrite Hlog, <- app_assoc. reflexivity.
      * right. exists (v :: pre), w, post, t1, t2, e.
        split; [rewrite Hvs; reflexivity|].
        split; [econstructor; eassumption|].
        split; [exact Hw|].
        split; [rewrite (All_cons_nil _ _ _ _ Hv); exact Hall|].
        rewrite Hlog, <- app_assoc. reflexivity.
Qed.

(** C3.  [All] runs the validators strictly in the order given.  Either
    no validator returns an error: then every validator is invoked
    once, in order, and [All] returns nil.  Or there is a first
    validator that returns an error: then the validators up to and
    including it are invoked once, in order, [All] returns its error,
    and no validator after it is invoked. *)
Theorem All_stops_at_first_error (validations : list (BuildPath St)) s :
  (exists s',
      NoError validations s s' /\
      All validations s = (s', None) /\
      All (instrument 0 validations) (s, [])
      = ((s', seq 0 (List.length validations)), None))
  \/
  (exists pre v post s1 s2 e,
      validations = pre ++ v :: post /\
      NoError pre s s1 /\
      ValidatePath v s1 = (s2, Some e) /\
      All validations s = (s2, Some e) /\
      All (instrument 0 validations) (s, [])
      = ((s2, seq 0 (S (List.length pre))), Some e)).
Proof. exact (All_log_from validations s 0 []). Qed.

End Runner.

(** A chain of three validators over a counter: each adds to the counter,
    the second returns an error.  The first two run, in order, the third
    does not, and the error of the second is returned. *)
Example All_stops_at_second_of_three :
  All (instrument 0
         [mkBuildPath (fun n => (n + 1, None));
          mkBuildPath (fun n => (n + 10, Some "unreachable"%string));
          mkBuildPath (fun n => (n + 100, None))])
      (0, [])
  = ((11, [0; 1]), Some "unreachable"%string).
Proof. reflexivity. Qed.

End ChainFacts.

(** ** The scheduler-name validator *)
Module SchedulerNameFacts.
Import v1beta1 validate observe.

Section Validator.
Variable IsQualifiedName : string -> list string.

Lemma ValidatePath_returns_nil (b : Build) :
  snd (SchedulerNameRef_ValidatePath IsQualifiedName b) = None.
Proof.
  unfold SchedulerNameRef_ValidatePath.
  destruct (negb _); [|reflexivity].
  destruct (_ <? _)%nat; reflexivity.
Qed.

Lemma ValidatePath_invalid (b : Build) :
  BuildSpec_SchedulerName (Build_Spec b) <> EmptyString ->
  IsQualifiedName (BuildSpec_SchedulerName (Build_Spec b)) <> [] ->
  SchedulerNameRef_ValidatePath IsQualifiedName b
  = (reported (IsQualifiedName (BuildSpec_SchedulerName (Build_Spec b))) b, None).
Proof.
  intros Hname Herrs. unfold SchedulerNameRef_ValidatePath.
  apply String.eqb_neq in Hname. rewrite Hname. simpl.
  destruct (IsQualifiedName _) as [|err errs]; [contradiction|]. reflexivity.
Qed.

Lemma ValidatePath_valid (b : Build) :
  BuildSpec_SchedulerName (Build_Spec b) = EmptyString \/
  IsQualifiedName (BuildSpec_SchedulerName (Build_Spec b)) = [] ->
  SchedulerNameRef_ValidatePath IsQualifiedName b = (b, None).
Proof.
  intros H. unfold SchedulerNameRef_ValidatePath.
  destruct (String.eqb_spec (BuildSpec_SchedulerName (Build_Spec b)) EmptyString)
    as [Hempty|Hfull]; simpl; [reflexivity|].
  destruct H as [H|H]; [contradiction|]. rewrite H. reflexivity.
Qed.

(** C8.  For a Build whose scheduler name is not empty and fails the
    check of qualified names, the validator sets the reason to
    SchedulerNameNotValid and the message to the errors joined by a
    comma and a space, and returns nil; and [ValidatePath] returns nil
    on every Build: a semantic failure is reported through the status
    only. *)
Theorem SchedulerName_reports_through_status (b : Build) :
  BuildSpec_SchedulerName (Build_Spec b) <> EmptyString ->
  IsQualifiedName (BuildSpec_SchedulerName (Build_Spec b)) <> [] ->
  (exists b',
      ValidatePath (NewSchedulerName IsQualifiedName) b = (b', None) /\
      BuildStatus_Reason (Build_Status b') = Some SchedulerNameNotValid /\
      BuildStatus_Message (Build_Status b')
      = Some (strings.Join (IsQualifiedName (BuildSpec_SchedulerName (Build_Spec b))) ", ") /\
      Build_Spec b' = Build_Spec b /\
      Build_Name b' = Build_Name b /\
      Build_Namespace b' = Build_Namespace b)
  /\
  (forall any : Build, snd (ValidatePath (NewSchedulerName IsQualifiedName) any) = None).
Proof.
  intros Hname Herrs. split.
  - eexists. split; [exact (ValidatePath_invalid b Hname Herrs)|].
    repeat split.
  - exact ValidatePath_returns_nil.
Qed.

(** C1, as the code has it.  No validator checks whether a reason is
    already set, and [All] stops at a technical error only.  When the
    scheduler-name validator runs after validators that returned no
    error, it leaves the reason and the message that they set as they
    are exactly when the scheduler name is empty or valid; when the
    name is not empty and invalid, it overwrites them with
    SchedulerNameNotValid and the joined errors: the last semantic
    failure in the order of the chain is the one that is left. *)
Theorem SchedulerName_writes_unconditionally
        (earlier : list (BuildPath Build)) (b b1 : Build) :
  All earlier b = (b1, None) ->
  exists b2,
    All (earlier ++ [NewSchedulerName IsQualifiedName]) b = (b2, None) /\
    Build_Spec b2 = Build_Spec b1 /\
    (BuildSpec_SchedulerName (Build_Spec b1) = EmptyString \/
     IsQualifiedName (BuildSpec_SchedulerName (Build_Spec b1)) = [] ->
     b2 = b1) /\
    (BuildSpec_SchedulerName (Build_Spec b1) <> EmptyString ->
     IsQualifiedName (BuildSpec_SchedulerName (Build_Spec b1)) <> [] ->
     BuildStatus_Reason (Build_Status b2) = Some SchedulerNameNotValid /\
     BuildStatus_Message (Build_Status b2)
     = Some (strings.Join (IsQualifiedName (BuildSpec_SchedulerName (Build_Spec b1))) ", ")).
Proof.
  intros Hearlier.
  rewrite ChainFacts.All_app, Hearlier. simpl.
  destruct (SchedulerNameRef_ValidatePath IsQualifiedName b1) as [b2 err] eqn:Hrun.
  pose proof (ValidatePath_returns_nil b1) as Hnil. rewrite Hrun in Hnil.
  simpl in Hnil. subst err. exists b2. split; [reflexivity|].
  split; [|split].
  - unfold SchedulerNameRef_ValidatePath in Hrun.
    destruct (negb _); [destruct (_ <? _)%nat|]; injection Hrun as <-; reflexivity.
  - intros Hvalid. rewrite (ValidatePath_valid b1 Hvalid) in Hrun. congruence.
  - intros Hname Herrs. rewrite (ValidatePath_invalid b1 Hname Herrs) in Hrun.
    injection Hrun as <-. split; reflexivity.
Qed.

End Validator.

(** The library's check on the name of 64 bytes that the reconciler suite
    uses: the only error is the one on the length of the name part. *)
Example IsQualifiedName_long_name :
  validation.IsQualifiedName samples.longName
  = [("name part " ++ validation.MaxLenError 63)%string].
Proof. vm_compute. reflexivity. Qed.

Lemma SchedulerName_reports_sample :
  BuildSpec_SchedulerName (Build_Spec samples.buildWithBadSchedulerName) <> EmptyString /\
  validation.IsQualifiedName
    (BuildSpec_SchedulerName (Build_Spec samples.buildWithBadSchedulerName)) <> [] /\
  ((exists b',
       ValidatePath (NewSchedulerName validation.IsQualifiedName)
                    samples.buildWithBadSchedulerName = (b', None) /\
       BuildStatus_Reason (Build_Status b') = Some SchedulerNameNotValid /\
       BuildStatus_Message (Build_Status b')
       = Some (strings.Join
                 (validation.IsQualifiedName
                    (BuildSpec_SchedulerName (Build_Spec samples.buildWithBadSchedulerName)))
                 ", ") /\
       Build_Spec b' = Build_Spec samples.buildWithBadSchedulerName /\
       Build_Name b' = Build_Name samples.buildWithBadSchedulerName /\
       Build_Namespace b' = Build_Namespace samples.buildWithBadSchedulerName)
   /\
   (forall any : Build,
       snd (ValidatePath (NewSchedulerName validation.IsQualifiedName) any) = None)).
Proof.
  split; [discriminate|]. split; [vm_compute; discriminate|].
  apply (SchedulerName_reports_through_status
           validation.IsQualifiedName samples.buildWithBadSchedulerName);
    [discriminate | vm_compute; discriminate].
Defined.

Lemma SchedulerName_writes_unconditionally_sample :
  All [samples.nodeSelectorFailure] samples.buildWithBadSchedulerName
  = (set_Status_Message (Some "name part must be no more than 63 characters")
       (set_Status_Reason (Some NodeSelectorNotValid) samples.buildWithBadSchedulerName),
     None)
  /\
  exists b2,
    All ([samples.nodeSelectorFailure] ++ [NewSchedulerName validation.IsQualifiedName])
        samples.buildWithBadSchedulerName = (b2, None) /\
    BuildStatus_Reason (Build_Status b2) = Some SchedulerNameNotValid.
Proof.
  split; [reflexivity|].
  destruct (SchedulerName_writes_unconditionally
              validation.IsQualifiedName [samples.nodeSelectorFailure]
              samples.buildWithBadSchedulerName _ eq_refl)
    as [b2 [Hrun [_ [_ Hinvalid]]]].
  exists b2. split; [exact Hrun|].
  apply Hinvalid; [discriminate | vm_compute; discriminate].
Defined.

(** The claim of C1 fails on the code: after a validator has set the
    reason NodeSelectorNotValid, the scheduler-name validator, run next
    in the same chain on a Build with an invalid scheduler name, replaces
    this reason and its message. *)
Lemma SchedulerName_overwrites_earlier_reason :
  BuildStatus_Reason
    (Build_Status (fst (All [samples.nodeSelectorFailure] samples.buildWithBadSchedulerName)))
  = Some NodeSelectorNotValid
  /\
  validation.IsQualifiedName
    (BuildSpec_SchedulerName (Build_Spec samples.buildWithBadSchedulerName)) <> []
  /\
  snd (All [samples.nodeSelectorFailure; NewSchedulerName validation.IsQualifiedName]
           samples.buildWithBadSchedulerName) = None
  /\
  BuildStatus_Reason
    (Build_Status (fst (All [samples.nodeSelectorFailure; NewSchedulerName validation.IsQualifiedName]
                            samples.buildWithBadSchedulerName)))
  = Some SchedulerNameNotValid
  /\
  BuildStatus_Reason
    (Build_Status (fst (All [samples.nodeSelectorFailure; NewSchedulerName validation.IsQualifiedName]
                            samples.buildWithBadSchedulerName)))
  <> BuildStatus_Reason
       (Build_Status (fst (All [samples.nodeSelectorFailure] samples.buildWithBadSchedulerName)))
  /\
  BuildStatus_Message
    (Build_Status (fst (All [samples.nodeSelectorFailure; NewSchedulerName validation.IsQualifiedName]
                            samples.buildWithBadSchedulerName)))
  <> BuildStatus_Message
       (Build_Status (fst (All [samples.nodeSelectorFailure] samples.buildWithBadSchedulerName))).
Proof.
  split; [reflexivity|].
  split; [vm_compute; discriminate|].
  split; [reflexivity|].
  split; [reflexivity|].
  split; vm_compute; discriminate.
Qed.

End SchedulerNameFacts.

(** ** The credentials validator *)
Module CredentialsFacts.
Import v1beta1 validate.

Lemma sort_two (x y : string) :
  sort.Strings [x; y] = if String.leb x y then [x; y] else [y; x].
Proof. reflexivity. Qed.

Lemma missingSecrets_both (client : Client) (b : Build) (clone push : string) :
  cloneSecret b = Some clone ->
  pushSecret b = Some push ->
  Client_GetSecret client (Build_Namespace b) clone = NotFound ->
  Client_GetSecret client (Build_Namespace b) push = NotFound ->
  missingSecrets client (Build_Namespace b) (credentialReferences b)
  = inr [(clone, SpecSourceSecretRefNotFound); (push, SpecOutputSecretRefNotFound)].
Proof.
  intros Hclone Hpush Hc Hp. unfold credentialReferences.
  rewrite Hclone, Hpush. simpl. rewrite Hc, Hp. reflexivity.
Qed.

(** C9.  For a Build that refers to a clone secret and to a push secret,
    neither of which exists, the validator returns no error, sets the
    reason to MultipleSecretRefNotFound and the message to the two names
    after the words "missing secrets are", joined by a comma, the smaller
    name in the order of strings first. *)
Theorem Credentials_both_secrets_missing
        (client : Client) (b : Build) (clone push : string) :
  cloneSecret b = Some clone ->
  pushSecret b = Some push ->
  Client_GetSecret client (Build_Namespace b) clone = NotFound ->
  Client_GetSecret client (Build_Namespace b) push = NotFound ->
  exists first second b',
    ValidatePath (NewCredentials client) b = (b', None) /\
    BuildStatus_Reason (Build_Status b') = Some MultipleSecretRefNotFound /\
    BuildStatus_Message (Build_Status b')
    = Some ("missing secrets are " ++ first ++ "," ++ second) /\
    String.leb first second = true /\
    ((first = clone /\ second = push) \/ (first = push /\ second = clone)).
Proof.
  intros Hclone Hpush Hc Hp.
  pose proof (missingSecrets_both client b clone push Hclone Hpush Hc Hp) as Hmissing.
  simpl. unfold Credentials_ValidatePath. rewrite Hmissing.
  cbv [map fst]. rewrite sort_two.
  destruct (String.leb clone push) eqn:Hle.
  - exists clone, push. eexists. split; [reflexivity|].
    split; [reflexivity|]. split; [reflexivity|]. split; [exact Hle|]. left. split; reflexivity.
  - exists push, clone. eexists. split; [reflexivity|].
    split; [reflexivity|]. split; [reflexivity|].
    split; [|right; split; reflexivity].
    destruct (String.leb_total clone push) as [H|H]; [congruence | exact H].
Qed.

Lemma Credentials_both_secrets_missing_sample :
  exists b',
    ValidatePath (NewCredentials samples.clientWithoutSecrets) samples.buildWithMissingSecrets
    = (b', None) /\
    BuildStatus_Reason (Build_Status b') = Some MultipleSecretRefNotFound /\
    BuildStatus_Message (Build_Status b')
    = Some "missing secrets are non-existing-output,non-existing-source".
Proof.
  destruct (Credentials_both_secrets_missing
              samples.clientWithoutSecrets samples.buildWithMissingSecrets
              "non-existing-source" "non-existing-output"
              eq_refl eq_refl eq_refl eq_refl)
    as [first [second [b' [Hrun [Hreason [Hmessage [Hle Hnames]]]]]]].
  exists b'. split; [exact Hrun|]. split; [exact Hreason|].
  destruct Hnames as [[-> ->]|[-> ->]].
  - vm_compute in Hle. discriminate Hle.
  - exact Hmessage.
Defined.

(** The two cases of the reconciler suite with one missing secret. *)
Example Credentials_clone_secret_missing :
  ValidatePath (NewCredentials samples.clientWithoutSecrets) samples.buildWithMissingCloneSecret
  = (set_Status_Message (Some "referenced secret non-existing not found")
       (set_Status_Reason (Some SpecSourceSecretRefNotFound)
                          samples.buildWithMissingCloneSecret),
     None).
Proof. reflexivity. Qed.

Example Credentials_push_secret_missing :
  ValidatePath (NewCredentials samples.clientWithoutSecrets) samples.buildWithMissingPushSecret
  = (set_Status_Message (Some "referenced secret registry-secret not found")
       (set_Status_Reason (Some SpecOutputSecretRefNotFound)
                          samples.buildWithMissingPushSecret),
     None).
Proof. reflexivity. Qed.

End CredentialsFacts.

(** ** The source steps *)
Module SourcesFacts.
Import v1alpha1 tekton resources.
Local Open Scope list_scope.

Section Steps.
Variable Config : Type.
Variable gitStep : Config -> Source -> Step.
Variable httpStep : Config -> BuildSource -> Step.

Lemma AppendHttpStep_each (cfg : Config) (sources : list BuildSource) (taskSpec : TaskSpec) :
  TaskSpec_Steps
    (fold_left (fun taskSpec source => AppendHttpStep Config httpStep cfg taskSpec source)
               sources taskSpec)
  = TaskSpec_Steps taskSpec ++ map (httpStep cfg) sources.
Proof.
  revert taskSpec. induction sources as [|source sources IH]; intros taskSpec; simpl.
  - rewrite app_nil_r. reflexivity.
  - rewrite IH. simpl. rewrite <- app_assoc. reflexivity.
Qed.

(** C4.  [AmendTaskSpecWithSources] appends to the steps of the task
    template one step for the default source, named "default", and after
    it one step per auxiliary source, in the order in which the sources are
    declared; the steps that were there stay in front.  With two auxiliary
    sources X and Y, three steps are appended: default, the step of X, the
    step of Y. *)
Theorem AmendTaskSpecWithSources_steps (cfg : Config) (taskSpec : TaskSpec) (build : Build) :
  (exists default,
      Step_Name default = "default"%string /\
      Step_Content default
      = Step_Content (gitStep cfg (BuildSpec_Source (Build_Spec build))) /\
      TaskSpec_Steps (AmendTaskSpecWithSources Config gitStep httpStep cfg taskSpec build)
      = TaskSpec_Steps taskSpec ++ default :: map (httpStep cfg) (auxiliary build))
  /\
  (forall X Y,
      BuildSpec_Sources (Build_Spec build) = Some [X; Y] ->
      exists default,
        Step_Name default = "default"%string /\
        TaskSpec_Steps (AmendTaskSpecWithSources Config gitStep httpStep cfg taskSpec build)
        = TaskSpec_Steps taskSpec ++ [default; httpStep cfg X; httpStep cfg Y]).
Proof.
  assert (Hall :
    TaskSpec_Steps (AmendTaskSpecWithSources Config gitStep httpStep cfg taskSpec build)
    = TaskSpec_Steps taskSpec
      ++ set_Name "default" (gitStep cfg (BuildSpec_Source (Build_Spec build)))
         :: map (httpStep cfg) (auxiliary build)).
  { unfold AmendTaskSpecWithSources, auxiliary.
    destruct (BuildSpec_Sources (Build_Spec build)) as [sources|].
    - rewrite AppendHttpStep_each. unfold AppendGitStep. simpl.
      rewrite <- app_assoc. reflexivity.
    - reflexivity. }
  split.
  - eexists. split; [|split; [|exact Hall]]; reflexivity.
  - intros X Y Hsources.
    exists (set_Name "default" (gitStep cfg (BuildSpec_Source (Build_Spec build)))).
    split; [reflexivity|]. rewrite Hall. unfold auxiliary. rewrite Hsources. reflexivity.
Qed.

End Steps.

End SourcesFacts.

(** ** The failure extractor *)
Module FailuresFacts.
Import v1alpha1 tekton resources.
Local Open Scope list_scope.


Section Extractor.
Variable prefixParamsResultsVolumes : string.
Variable Unmarshal : string -> option (list PipelineResourceResult).

Local Abbreviation reasonKey := (errorReasonKey prefixParamsResultsVolumes).
Local Abbreviation messageKey := (errorMessageKey prefixParamsResultsVolumes).
Local Abbreviation Update := (UpdateBuildRunUsingTaskFailures prefixParamsResultsVolumes Unmarshal).


Lemma GetCondition_Some (taskRun : TaskRun) (t : string) (cond : Condition) :
  GetCondition taskRun t = Some cond ->
  In cond (TaskRunStatus_Conditions (TaskRun_Status taskRun)) /\ Condition_Type cond = t.
Proof.
  unfold GetCondition. intros H. apply find_some in H.
  destruct H as [Hin Heq]. apply String.eqb_eq in Heq. split; assumption.
Qed.

Lemma lookupResult_Some (key value : string) (results : list PipelineResourceResult) :
  lookupResult key results = Some value ->
  In (mkPipelineResourceResult key value) results.
Proof.
  unfold lookupResult. destruct (find _ results) as [r|] eqn:Hfind; [|discriminate].
  simpl. intros H. injection H as <-.
  apply find_some in Hfind. destruct Hfind as [Hin Hkey].
  apply String.eqb_eq in Hkey. destruct r as [k v]. simpl in Hkey. subst k. exact Hin.
Qed.


Lemma firstResults_Some (steps : list StepState) (results : list PipelineResourceResult) :
  firstResults Unmarshal steps = Some results ->
  exists pre step post terminated,
    steps = pre ++ step :: post /\
    Forall (noResults Unmarshal) pre /\
    StepState_Terminated step = Some terminated /\
    Unmarshal (ContainerStateTerminated_Message terminated) = Some results.
Proof.
  induction steps as [|step steps IH]; simpl; [discriminate|].
  destruct (StepState_Terminated step) as [terminated|] eqn:Hterm.
  - destruct (Unmarshal (ContainerStateTerminated_Message terminated)) as [rs|] eqn:Hparse.
    + intros H. injection H as <-. exists [], step, steps, terminated.
      repeat split; [constructor | exact Hterm | exact Hparse].
    + intros H. destruct (IH H) as [pre [s [post [t [Hsteps [Hpre [Hs Ht]]]]]]].
      exists (step :: pre), s, post, t. rewrite Hsteps.
      repeat split; [|exact Hs | exact Ht].
      constructor; [|exact Hpre]. intros t' Ht'. congruence.
  - intros H. destruct (IH H) as [pre [s [post [t [Hsteps [Hpre [Hs Ht]]]]]]].
    exists (step :: pre), s, post, t. rewrite Hsteps.
    repeat split; [|exact Hs | exact Ht].
    constructor; [|exact Hpre]. intros t' Ht'. congruence.
Qed.


(** C5, as the code has it.  The extractor raises no error, and it
    leaves the BuildRun as it is unless the completion condition, the
    first condition of type Succeeded, has the reason Failed, whatever its
    status, and some step has a termination message that parses as an
    array of results containing both well-known keys; in that case the
    failure is set to the two values and nothing else changes.  So a
    missing condition of type Succeeded, a reason other than Failed, an
    absent or unparsable termination message and a message without one of
    the keys all leave the failure untouched. *)
Theorem UpdateBuildRunUsingTaskFailures_guard (buildRun : BuildRun) (taskRun : TaskRun) :
  Update buildRun taskRun = buildRun
  \/
  (exists cond step terminated results reason message,
      GetCondition taskRun ConditionSucceeded = Some cond /\
      Condition_Type cond = ConditionSucceeded /\
      Condition_Reason cond = TaskRunReasonFailed /\
      In step (TaskRunStatus_Steps (TaskRun_Status taskRun)) /\
      StepState_Terminated step = Some terminated /\
      Unmarshal (ContainerStateTerminated_Message terminated) = Some results /\
      In (mkPipelineResourceResult reasonKey reason) results /\
      In (mkPipelineResourceResult messageKey message) results /\
      Update buildRun taskRun
      = set_Status_Failure (Some (mkFailure reason message)) buildRun).
Proof.
  unfold UpdateBuildRunUsingTaskFailures.
  destruct (GetCondition taskRun ConditionSucceeded) as [cond|] eqn:Hcond; [|left; reflexivity].
  destruct (String.eqb_spec (Condition_Reason cond) TaskRunReasonFailed) as [Hreason|_];
    [|left; reflexivity].
  unfold extractFailure.
  destruct (firstResults Unmarshal _) as [results|] eqn:Hfirst; [|left; reflexivity].
  destruct (lookupResult reasonKey results) as [reason|] eqn:Hr; [|left; reflexivity].
  destruct (lookupResult messageKey results) as [message|] eqn:Hm; [|left; reflexivity].
  right.
  destruct (firstResults_Some _ _ Hfirst) as [pre [step [post [t [Hsteps [_ [Hterm Hparse]]]]]]].
  exists cond, step, t, results, reason, message.
  split; [reflexivity|].
  split; [exact (proj2 (GetCondition_Some _ _ _ Hcond))|].
  split; [exact Hreason|].
  split; [rewrite Hsteps; apply in_or_app; right; left; reflexivity|].
  split; [exact Hterm|].
  split; [exact Hparse|].
  split; [exact (lookupResult_Some _ _ _ Hr)|].
  split; [exact (lookupResult_Some _ _ _ Hm)|].
  reflexivity.
Qed.


(** C7.  The extractor is idempotent: applied to the BuildRun that it
    returned, with the same TaskRun, it returns that BuildRun again, so
    the failure, its reason and its message, is the same after the second
    application as after the first. *)
Theorem UpdateBuildRunUsingTaskFailures_idempotent (buildRun : BuildRun) (taskRun : TaskRun) :
  Update (Update buildRun taskRun) taskRun = Update buildRun taskRun.
Proof.
  unfold UpdateBuildRunUsingTaskFailures.
  destruct (GetCondition taskRun ConditionSucceeded) as [cond|]; [|reflexivity].
  destruct (Condition_Reason cond =? TaskRunReasonFailed)%string; [|reflexivity].
  destruct (extractFailure prefixParamsResultsVolumes Unmarshal taskRun); reflexivity.
Qed.

End Extractor.


(** The claim of C5 fails on the suite's first case: the completion
    condition of its TaskRun has the type Succeeded and the reason Failed
    but not the status False, so it is not the condition that the claim
    requires, and the extractor sets the failure all the same, as the
    suite expects. *)
Lemma UpdateBuildRunUsingTaskFailures_ignores_status :
  GetCondition samples.redTaskRun ConditionSucceeded
  = Some (mkCondition ConditionSucceeded EmptyString TaskRunReasonFailed)
  /\
  mkCondition ConditionSucceeded EmptyString TaskRunReasonFailed
  <> mkCondition ConditionSucceeded "False" TaskRunReasonFailed
  /\
  BuildRunStatus_Failure (BuildRun_Status samples.redBuild) = None
  /\
  BuildRunStatus_Failure
    (BuildRun_Status
       (UpdateBuildRunUsingTaskFailures samples.prefix json.Unmarshal
                                        samples.redBuild samples.redTaskRun))
  = Some (mkFailure "val1" "val2").
Proof.
  split; [reflexivity|].
  split; [discriminate|].
  split; [reflexivity|].
  vm_compute. reflexivity.
Qed.

(** The other cases of the suite: the failure stays nil. *)
Example failed_TaskRun_without_error_reason_and_message :
  BuildRunStatus_Failure
    (BuildRun_Status
       (UpdateBuildRunUsingTaskFailures samples.prefix json.Unmarshal
                                        samples.redBuild samples.redTaskRunWithoutError))
  = None.
Proof. vm_compute. reflexivity. Qed.

Example no_errors_for_successful_TaskRun :
  UpdateBuildRunUsingTaskFailures samples.prefix json.Unmarshal
                                  samples.redBuild samples.greenTaskRun
  = samples.redBuild.
Proof. reflexivity. Qed.

Example TaskRun_without_condition_succeeded :
  UpdateBuildRunUsingTaskFailures samples.prefix json.Unmarshal
                                  samples.redBuild samples.unfinishedTaskRun
  = samples.redBuild.
Proof. reflexivity. Qed.

Example TaskRun_with_unknown_reason :
  UpdateBuildRunUsingTaskFailures samples.prefix json.Unmarshal
                                  samples.redBuild samples.unknownTaskRun
  = samples.redBuild.
Proof. reflexivity. Qed.

End FailuresFacts.

(** ** The wire format of the results *)
Module JsonFacts.
Import tekton json.

Lemma append_assoc (a b c : string) : ((a ++ b) ++ c = a ++ (b ++ c))%string.
Proof. induction a as [|x a IH]; simpl; [reflexivity|]. rewrite IH. reflexivity. Qed.

Lemma inString_plain (c : ascii) (grow : string -> state) (close : config)
      (s : string) (cur : PipelineResourceResult) (out : list PipelineResourceResult) :
  plainChar c = true ->
  inString c grow close s cur out = Some (grow (snoc s c), cur, out).
Proof.
  unfold plainChar, inString. intros H.
  apply andb_prop in H. destruct H as [H H3]. apply andb_prop in H. destruct H as [H1 H2].
  apply negb_true_iff in H1, H2, H3. rewrite H1, H2, H3. reflexivity.
Qed.

(** A plain string up to its closing quote is read as a member name. *)
Lemma run_name (s acc rest : string) cur out :
  plain s = true ->
  run (InName acc, cur, out) (s ++ String quote rest)
  = run (BeforeColon (acc ++ s), cur, out) rest.
Proof.
  revert acc. induction s as [|c s IH]; intros acc H.
  - simpl. replace (acc ++ EmptyString)%string with acc; [reflexivity|].
    clear. induction acc as [|x acc IH]; simpl; [reflexivity|]. rewrite <- IH. reflexivity.
  - simpl in H. apply andb_prop in H. destruct H as [Hc Hs].
    change (run (InName acc, cur, out) (String c s ++ String quote rest))
      with (match step (InName acc, cur, out) c with
            | Some cfg' => run cfg' (s ++ String quote rest)
            | None => None
            end).
    change (step (InName acc, cur, out) c)
      with (inString c InName (BeforeColon acc, cur, out) acc cur out).
    rewrite (inString_plain _ _ _ _ _ _ Hc), (IH _ Hs).
    unfold snoc. rewrite append_assoc. reflexivity.
Qed.

(** A plain string up to its closing quote is read as the value of a
    member and stored in the field of the member. *)
Lemma run_value (s name acc rest : string) cur out :
  plain s = true ->
  run (InValue name acc, cur, out) (s ++ String quote rest)
  = run (AfterMember, setMember name (acc ++ s) cur, out) rest.
Proof.
  revert acc. induction s as [|c s IH]; intros acc H.
  - simpl. replace (acc ++ EmptyString)%string with acc; [reflexivity|].
    clear. induction acc as [|x acc IH]; simpl; [reflexivity|]. rewrite <- IH. reflexivity.
  - simpl in H. apply andb_prop in H. destruct H as [Hc Hs].
    change (run (InValue name acc, cur, out) (String c s ++ String quote rest))
      with (match step (InValue name acc, cur, out) c with
            | Some cfg' => run cfg' (s ++ String quote rest)
            | None => None
            end).
    change (step (InValue name acc, cur, out) c)
      with (inString c (InValue name) (AfterMember, setMember name acc cur, out) acc cur out).
    rewrite (inString_plain _ _ _ _ _ _ Hc), (IH _ Hs).
    unfold snoc. rewrite append_assoc. reflexivity.
Qed.

(** Where an object may start: after the opening bracket, or after a
    comma in the array. *)
Definition objectStart (st : state) : Prop := st = InArray \/ st = BeforeObject.

(** The text of an encoded result, around the key and the value. *)
Lemma marshalResult_text (k v rest : string) :
  (marshalResult (mkPipelineResourceResult k v) ++ rest
   = "{" ++ String quote ("key" ++ String quote (":" ++ String quote
       (k ++ String quote
          ("," ++ String quote ("value" ++ String quote (":" ++ String quote
             (v ++ String quote ("}" ++ rest)))))))))%string.
Proof.
  unfold marshalResult, quoted, snoc. simpl PipelineResourceResult_Key.
  simpl PipelineResourceResult_Value.
  repeat first [rewrite append_assoc | progress cbn [append]]. reflexivity.
Qed.

Lemma run_to_key (text : string) st cur out :
  objectStart st ->
  run (st, cur, out)
      ("{" ++ String quote ("key" ++ String quote (":" ++ String quote text)))
  = run (InValue "key" EmptyString, zero, out) text.
Proof. intros [-> | ->]; reflexivity. Qed.

Lemma run_to_value (text : string) cur out :
  run (AfterMember, cur, out)
      ("," ++ String quote ("value" ++ String quote (":" ++ String quote text)))
  = run (InValue "value" EmptyString, cur, out) text.
Proof. reflexivity. Qed.

(** An encoded result is read back as the result and added to the
    output. *)
Lemma run_marshalResult (r : PipelineResourceResult) (rest : string) st cur out :
  plainResult r = true ->
  objectStart st ->
  run (st, cur, out) (marshalResult r ++ rest)
  = run (AfterObject, r, (out ++ [r])%list) rest.
Proof.
  intros Hplain Hst. destruct r as [k v]. unfold plainResult in Hplain. simpl in Hplain.
  apply andb_prop in Hplain. destruct Hplain as [Hk Hv].
  rewrite marshalResult_text, (run_to_key _ _ _ _ Hst).
  rewrite (run_value k _ _ _ _ _ Hk), run_to_value.
  rewrite (run_value v _ _ _ _ _ Hv).
  reflexivity.
Qed.

(** The encoded results of a list that is not empty, separated by
    commas, are read back one after the other. *)
Lemma run_results (rs : list PipelineResourceResult) :
  forallb plainResult rs = true ->
  rs <> [] ->
  forall (rest : string) st cur out,
    objectStart st ->
    exists last,
      run (st, cur, out) (String.concat "," (map marshalResult rs) ++ rest)
      = run (AfterObject, last, (out ++ rs)%list) rest.
Proof.
  induction rs as [|r rs IH]; intros Hplain Hne rest st cur out Hst; [contradiction|].
  simpl in Hplain. apply andb_prop in Hplain. destruct Hplain as [Hr Hrs].
  destruct rs as [|r' rs].
  - exists r. simpl. apply run_marshalResult; assumption.
  - change (String.concat "," (map marshalResult (r :: r' :: rs)))
      with (marshalResult r ++ "," ++ String.concat "," (map marshalResult (r' :: rs)))%string.
    rewrite !append_assoc, (run_marshalResult r _ _ _ _ Hr Hst).
    destruct (IH Hrs ltac:(discriminate) rest BeforeObject r (out ++ [r])%list
                 (or_intror eq_refl)) as [last Hlast].
    exists last. rewrite <- app_assoc in Hlast. exact Hlast.
Qed.

(** Decoding inverts encoding, for results whose keys and values need no
    escape sequence. *)
Theorem Unmarshal_Marshal (rs : list PipelineResourceResult) :
  forallb plainResult rs = true ->
  Unmarshal (Marshal rs) = Some rs.
Proof.
  intros Hplain. destruct rs as [|r rs]; [reflexivity|].
  unfold Unmarshal, Marshal.
  change (run (BeforeArray, zero, [])
              ("[" ++ String.concat "," (map marshalResult (r :: rs)) ++ "]"))
    with (run (InArray, zero, [])
              (String.concat "," (map marshalResult (r :: rs)) ++ "]")).
  destruct (run_results (r :: rs) Hplain ltac:(discriminate) "]" InArray zero []
                        (or_introl eq_refl)) as [last Hlast].
  rewrite Hlast. reflexivity.
Qed.

End JsonFacts.

(** ** The registry of validators *)
Module RegistryFacts.
Import validate readings.

Section Registry.
Variables BuildRef ClientRef SchemeRef : Type.

Local Abbreviation New := (NewValidation BuildRef ClientRef SchemeRef).

(** X1.  [NewValidation] knows exactly the eleven validation types.  For
    one of them it returns a validator and no error, and the validator
    holds the Build that was passed; for any other string, also one that
    differs from a type by the case of its letters only, it returns no
    validator and the error "unknown validation type".  So exactly one of
    the two results is nil. *)
Theorem NewValidation_known_or_error
        (validationType : string) (build : BuildRef) (client : ClientRef)
        (scheme : SchemeRef) :
  (In validationType validationTypes /\
   exists v, New validationType build client scheme = (Some v, None) /\
             buildOf v = build /\
             In (structName v)
                ["Credentials"; "Strategy"; "SourceURLRef"; "OwnerRef"; "SourceRef";
                 "BuildSpecOutputValidator"; "BuildNameRef"; "Env"; "Trigger";
                 "NodeSelectorRef"; "TolerationsRef"]%string)
  \/
  (~ In validationType validationTypes /\
   New validationType build client scheme = (None, Some "unknown validation type"%string)).
Proof.
  unfold NewValidation.
  destruct (String.eqb_spec validationType types.Secrets) as [->|H1];
    [left; split; [cbv [validationTypes In]; tauto|]; eexists; repeat split; simpl; tauto|].
  destruct (String.eqb_spec validationType types.Strategies) as [->|H2];
    [left; split; [cbv [validationTypes In]; tauto|]; eexists; repeat split; simpl; tauto|].
  destruct (String.eqb_spec validationType types.SourceURL) as [->|H3];
    [left; split; [cbv [validationTypes In]; tauto|]; eexists; repeat split; simpl; tauto|].
  destruct (String.eqb_spec validationType types.OwnerReferences) as [->|H4];
    [left; split; [cbv [validationTypes In]; tauto|]; eexists; repeat split; simpl; tauto|].
  destruct (String.eqb_spec validationType types.Source) as [->|H5];
    [left; split; [cbv [validationTypes In]; tauto|]; eexists; repeat split; simpl; tauto|].
  destruct (String.eqb_spec validationType types.Output) as [->|H6];
    [left; split; [cbv [validationTypes In]; tauto|]; eexists; repeat split; simpl; tauto|].
  destruct (String.eqb_spec validationType types.BuildName) as [->|H7];
    [left; split; [cbv [validationTypes In]; tauto|]; eexists; repeat split; simpl; tauto|].
  destruct (String.eqb_spec validationType types.Envs) as [->|H8];
    [left; split; [cbv [validationTypes In]; tauto|]; eexists; repeat split; simpl; tauto|].
  destruct (String.eqb_spec validationType types.Triggers) as [->|H9];
    [left; split; [cbv [validationTypes In]; tauto|]; eexists; repeat split; simpl; tauto|].
  destruct (String.eqb_spec validationType types.NodeSelector) as [->|H10];
    [left; split; [cbv [validationTypes In]; tauto|]; eexists; repeat split; simpl; tauto|].
  destruct (String.eqb_spec validationType types.Tolerations) as [->|H11];
    [left; split; [cbv [validationTypes In]; tauto|]; eexists; repeat split; simpl; tauto|].
  right. split; [|reflexivity].
  cbv [validationTypes In]. intros Hin.
  repeat (destruct Hin as [Hin|Hin]; [symmetry in Hin; contradiction|]). exact Hin.
Qed.

Ltac by_type H t :=
  repeat match type of H with
         | context [String.eqb t ?c] => destruct (String.eqb_spec t c)
         end.

(** X2.  No two validation types share a validator: when [NewValidation]
    returns validators of the same structure for two validation types,
    the two types are the same string. *)
Theorem NewValidation_one_type_per_structure
        (type1 type2 : string) (build1 build2 : BuildRef) (client1 client2 : ClientRef)
        (scheme1 scheme2 : SchemeRef)
        (v1 v2 : structs.Validator BuildRef ClientRef SchemeRef) :
  New type1 build1 client1 scheme1 = (Some v1, None) ->
  New type2 build2 client2 scheme2 = (Some v2, None) ->
  structName v1 = structName v2 ->
  type1 = type2.
Proof.
  unfold NewValidation. intros Hnew1 Hnew2 Hsame.
  by_type Hnew1 type1; try discriminate Hnew1; injection Hnew1 as <-;
    by_type Hnew2 type2; try discriminate Hnew2; injection Hnew2 as <-;
    first [congruence | discriminate Hsame].
Qed.

End Registry.

Lemma NewValidation_one_type_per_structure_sample :
  validate.types.Triggers = "triggers"%string.
Proof.
  exact (NewValidation_one_type_per_structure
           unit unit unit validate.types.Triggers "triggers" tt tt tt tt tt tt
           (structs.Trigger tt) (structs.Trigger tt) eq_refl eq_refl eq_refl).
Defined.

End RegistryFacts.

(** ** The field-conflict checker, as its callers see it *)
Module ConflictFacts.
Import v1beta1 validate readings.

Ltac cases_of_buildRun br :=
  destruct br as [runName [[inline ref] timeout params output env]];
  destruct inline as [[src trigger out sched]|]; destruct ref;
  destruct timeout; destruct params; destruct output; destruct env;
  try destruct trigger.

(** X3.  [BuildRunFields] returns the pair of empty strings exactly for
    the BuildRuns without a conflict: those with a reference and no inline
    spec, and those with an inline spec, no reference, no output, no
    parameter value, no environment variable, no timeout and no trigger
    in the inline spec.  Every other BuildRun is reported. *)
Theorem BuildRunFields_accepts_exactly_conflict_free (buildRun : BuildRun) :
  BuildRunFields buildRun = (EmptyString, EmptyString) <-> conflictFree buildRun.
Proof.
  unfold conflictFree, inlineTrigger.
  cases_of_buildRun buildRun; simpl; split;
    try (intros H; discriminate H);
    try (intros _; left; split; [reflexivity | discriminate]);
    try (intros _; right; repeat split; discriminate);
    try (intros _; reflexivity);
    try (intros [[H _]|[_ [H2 [H3 [H4 [H5 [H6 H7]]]]]]]; discriminate);
    try (intros [[_ H]|[H _]]; exfalso; apply H; reflexivity).
Qed.

(** X4.  The reason that [BuildRunFields] returns is one of the three
    reason codes or empty, and it is empty exactly when the message is
    empty: a caller may test either of the two strings. *)
Theorem BuildRunFields_reason_and_message (buildRun : BuildRun) :
  In (fst (BuildRunFields buildRun))
     [EmptyString; BuildRunNoRefOrSpec; BuildRunAmbiguousBuild;
      BuildRunBuildFieldOverrideForbidden]
  /\ (fst (BuildRunFields buildRun) = EmptyString
      <-> snd (BuildRunFields buildRun) = EmptyString).
Proof.
  cases_of_buildRun buildRun; simpl;
    (split; [tauto | split; intros H; first [reflexivity | discriminate H]]).
Qed.

Lemma ltb_0 (n : nat) : (0 <? n)%nat = negb (n =? 0)%nat.
Proof. destruct n; reflexivity. Qed.

(** X5.  [BuildRunFields] reads of a BuildRun only what is present: two
    BuildRuns that agree on which of the inline spec, the reference, the
    output, the timeout and the trigger of the inline spec are nil, and
    on whether the parameters and the environment are empty, get the same
    reason and the same message, whatever these fields hold. *)
Theorem BuildRunFields_reads_presence_only (buildRun1 buildRun2 : BuildRun) :
  presence buildRun1 = presence buildRun2 ->
  BuildRunFields buildRun1 = BuildRunFields buildRun2.
Proof.
  unfold presence, inlineTrigger, BuildRunFields.
  destruct buildRun1 as [name1 [[inline1 ref1] timeout1 params1 output1 env1]].
  destruct buildRun2 as [name2 [[inline2 ref2] timeout2 params2 output2 env2]].
  cbn [BuildRun_Spec BuildRunSpec_Build BuildRunSpec_Timeout BuildRunSpec_ParamValues
       BuildRunSpec_Output BuildRunSpec_Env ReferencedBuild_Spec ReferencedBuild_Name].
  intros H. injection H as Hinline Href Houtput Hparams Henv Htimeout Htrigger.
  rewrite !ltb_0, Href, Houtput, Hparams, Henv, Htimeout.
  destruct inline1 as [spec1|], inline2 as [spec2|]; try discriminate Hinline.
  - cbn [isNil andb]. rewrite Htrigger. reflexivity.
  - reflexivity.
Qed.

Lemma BuildRunFields_reads_presence_only_sample :
  BuildRunFields
    (mkBuildRun "first"
       (mkBuildRunSpec (mkReferencedBuild (Some (mkBuildSpec None None samples.image "a")) None)
                       (Some 0) [] None []))
  = BuildRunFields
      (mkBuildRun "second"
         (mkBuildRunSpec
            (mkReferencedBuild
               (Some (mkBuildSpec (Some (mkSource None)) None samples.image EmptyString)) None)
            (Some 3600) [] None [])).
Proof.
  apply BuildRunFields_reads_presence_only. reflexivity.
Defined.

End ConflictFacts.

(** ** Chains of validators, composed *)
Module ChainCompositionFacts.
Import v1beta1 validate observe readings.
Local Open Scope list_scope.

Section Runner.
Context {St : Type}.
Implicit Types (v : BuildPath St) (s : St).

(** X6.  A chain is a validator, and nesting chains changes nothing: the
    chains of a list, each run by its own [All] as one validator of an
    outer [All], leave the same state and return the same error as one
    [All] over all the validators in order.  In particular the validators
    after the chain that returns an error are not run. *)
Theorem All_of_chains (chains : list (list (BuildPath St))) s :
  All (map asValidator chains) s = All (List.concat chains) s.
Proof.
  revert s. induction chains as [|chain chains IH]; intros s; [reflexivity|].
  simpl. rewrite ChainFacts.All_app.
  destruct (All chain s) as [s1 [e|]]; [reflexivity | apply IH].
Qed.

(** X7.  [All] keeps what every validator keeps: a property of the state
    that each validator of the chain preserves, whether it returns an
    error or not, holds after the chain when it holds before, also when
    the chain stops at an error. *)
Theorem All_preserves (P : St -> Prop) (validations : list (BuildPath St)) s :
  (forall v, In v validations -> forall s0, P s0 -> P (fst (ValidatePath v s0))) ->
  P s ->
  P (fst (All validations s)).
Proof.
  revert s. induction validations as [|v rest IH]; intros s Hkeep Hs; [exact Hs|].
  simpl. pose proof (Hkeep v (or_introl eq_refl) s Hs) as Hv.
  destruct (ValidatePath v s) as [s1 [e|]]; [exact Hv|].
  apply IH; [|exact Hv]. intros w Hw. apply Hkeep. right. exact Hw.
Qed.

(** X8.  A chain of validators that never return an error returns nil,
    and the state it leaves is the one obtained by applying the effects
    of all the validators from left to right. *)
Theorem All_without_errors (validations : list (BuildPath St)) s :
  (forall v, In v validations -> forall s0, snd (ValidatePath v s0) = None) ->
  All validations s = (fold_left effect validations s, None).
Proof.
  revert s. induction validations as [|v rest IH]; intros s Hnil; [reflexivity|].
  simpl. pose proof (Hnil v (or_introl eq_refl) s) as Hv. unfold effect at 2.
  destruct (ValidatePath v s) as [s1 err]. simpl in Hv. subst err. simpl.
  apply IH. intros w Hw. apply Hnil. right. exact Hw.
Qed.

End Runner.

Section SchedulerName.
Variable IsQualifiedName : string -> list string.

Local Abbreviation Validate := (SchedulerNameRef_ValidatePath IsQualifiedName).

Lemma Validate_frame (b : Build) :
  Build_Spec (fst (Validate b)) = Build_Spec b /\
  Build_Name (fst (Validate b)) = Build_Name b /\
  Build_Namespace (fst (Validate b)) = Build_Namespace b.
Proof.
  unfold SchedulerNameRef_ValidatePath.
  destruct (negb _); [destruct (_ <? _)%nat|]; repeat split.
Qed.

Lemma Validate_again (b : Build) :
  Validate (fst (Validate b)) = Validate b.
Proof.
  unfold SchedulerNameRef_ValidatePath.
  destruct (negb (BuildSpec_SchedulerName (Build_Spec b) =? EmptyString)%string) eqn:Hname;
    [|simpl; rewrite Hname; reflexivity].
  destruct (0 <? List.length (IsQualifiedName (BuildSpec_SchedulerName (Build_Spec b))))%nat
    eqn:Herrs; simpl; rewrite Hname, Herrs; reflexivity.
Qed.

(** X9.  The scheduler-name validator writes to the status only, and
    only a failure: on every Build it leaves the spec, the name and the
    namespace as they are; the status is either unchanged, or its reason
    is SchedulerNameNotValid and its message is set; and a reason or a
    message that is set before is still set after, so the validator never
    clears a failure that is already reported. *)
Theorem SchedulerName_writes_status_only (b : Build) :
  Build_Spec (fst (Validate b)) = Build_Spec b /\
  Build_Name (fst (Validate b)) = Build_Name b /\
  Build_Namespace (fst (Validate b)) = Build_Namespace b /\
  (Build_Status (fst (Validate b)) = Build_Status b \/
   (BuildStatus_Reason (Build_Status (fst (Validate b))) = Some SchedulerNameNotValid /\
    BuildStatus_Message (Build_Status (fst (Validate b))) <> None)) /\
  (BuildStatus_Reason (Build_Status b) <> None ->
   BuildStatus_Reason (Build_Status (fst (Validate b))) <> None) /\
  (BuildStatus_Message (Build_Status b) <> None ->
   BuildStatus_Message (Build_Status (fst (Validate b))) <> None).
Proof.
  destruct (Validate_frame b) as [Hspec [Hname Hnamespace]].
  split; [exact Hspec|]. split; [exact Hname|]. split; [exact Hnamespace|].
  unfold SchedulerNameRef_ValidatePath.
  destruct (negb _); [destruct (_ <? _)%nat|]; simpl.
  - split; [right; split; [reflexivity | discriminate]|].
    split; intros _; discriminate.
  - split; [left; reflexivity|]. split; intros H; exact H.
  - split; [left; reflexivity|]. split; intros H; exact H.
Qed.

(** X10.  Running the scheduler-name validator again changes nothing: a
    chain of one or more scheduler-name validators on the same Build
    leaves the Build as a single run of the validator leaves it, and
    returns nil. *)
Theorem SchedulerName_repeated (n : nat) (b : Build) :
  All (repeat (NewSchedulerName IsQualifiedName) (S n)) b
  = ValidatePath (NewSchedulerName IsQualifiedName) b
  /\ snd (All (repeat (NewSchedulerName IsQualifiedName) (S n)) b) = None.
Proof.
  assert (Hrun : All (repeat (NewSchedulerName IsQualifiedName) (S n)) b
                 = ValidatePath (NewSchedulerName IsQualifiedName) b).
  { revert b. induction n as [|n IH]; intros b.
    - simpl. destruct (Validate b) as [b1 [e|]]; reflexivity.
    - change (repeat (NewSchedulerName IsQualifiedName) (S (S n)))
        with (NewSchedulerName IsQualifiedName
              :: repeat (NewSchedulerName IsQualifiedName) (S n)).
      pose proof (SchedulerNameFacts.ValidatePath_returns_nil IsQualifiedName b) as Hnil.
      pose proof (Validate_again b) as Hagain.
      cbn [All]. simpl ValidatePath in *.
      destruct (Validate b) as [b1 err]. simpl in Hnil, Hagain. subst err.
      rewrite IH. simpl. exact Hagain. }
  split; [exact Hrun|]. rewrite Hrun.
  apply SchedulerNameFacts.ValidatePath_returns_nil.
Qed.

End SchedulerName.

Lemma All_preserves_sample :
  Build_Spec
    (fst (All [reject NodeSelectorNotValid "invalid"%string;
               NewSchedulerName validation.IsQualifiedName]
              samples.buildWithBadSchedulerName))
  = Build_Spec samples.buildWithBadSchedulerName.
Proof.
  apply (All_preserves
           (fun b => Build_Spec b = Build_Spec samples.buildWithBadSchedulerName)
           [reject NodeSelectorNotValid "invalid"%string;
            NewSchedulerName validation.IsQualifiedName]
           samples.buildWithBadSchedulerName).
  - intros v [<-|[<-|[]]] s0 Hs0.
    + exact Hs0.
    + rewrite <- Hs0. apply Validate_frame.
  - reflexivity.
Defined.

Lemma All_without_errors_sample :
  All [reject NodeSelectorNotValid "invalid"%string;
       NewSchedulerName validation.IsQualifiedName]
      samples.buildWithBadSchedulerName
  = (fold_left effect
               [reject NodeSelectorNotValid "invalid"%string;
                NewSchedulerName validation.IsQualifiedName]
               samples.buildWithBadSchedulerName,
     None).
Proof.
  apply (All_without_errors
           [reject NodeSelectorNotValid "invalid"%string;
            NewSchedulerName validation.IsQualifiedName]
           samples.buildWithBadSchedulerName).
  intros v [<-|[<-|[]]] s0.
  - reflexivity.
  - apply SchedulerNameFacts.ValidatePath_returns_nil.
Defined.

End ChainCompositionFacts.
